(** * seqtypo: model collections, response assembly and link navigation

    A shallow embedding of [seqtypo/models.py] and of the navigation part of
    [seqtypo/api.py], followed by the properties of the specification that
    are stated about them.

    Python objects are dynamically typed, and [ModelList.search] reads an
    attribute by its name, so instances are modelled as a class tag with an
    attribute dictionary; exceptions are an explicit error result.  What the
    code takes from other packages is a parameter of the part that uses it:
    the [re] module in [ModelList.search], [pydantic.AnyUrl] and the lax
    conversions of pydantic in the constructors, and the fetch of a locus in
    the navigator.  A parsed URL is a value of its own, not a string.  A
    character of a string is a code point below 256. *)

From Stdlib Require Import String Ascii List Bool ZArith Lia DecimalString.
Import ListNotations.
Open Scope string_scope.
Set Warnings "-register-all".

(** ** Python values, exceptions and the few built-ins the code uses *)

Module Py.

(** The exception classes the modelled code can raise. *)
Inductive exn : Type :=
| TypeError
| ValueError
| AttributeError
| ValidationError   (* pydantic's error for a field of the wrong shape *)
| ReError           (* re.error, from re.compile *)
| ApiServiceError.  (* api.ApiServiceError, from the transport *)

Inductive result (A : Type) : Type :=
| Ok (a : A)
| Raise (e : exn).
Arguments Ok {A} a.
Arguments Raise {A} e.

Definition bind {A B} (m : result A) (k : A -> result B) : result B :=
  match m with
  | Ok a => k a
  | Raise e => Raise e
  end.

(** Classes of [models.py] whose instances appear as values. *)
Inductive class_name : Type :=
| ApiResourceModel_t
| ApiResourceCollectionModel_t
| SchemeCollectionModel_t
| DatabaseModel_t
| SchemeModel_t
| TaxonModel_t
| AlleleExactResult_t
| SequenceQueryResult_t
| rMLSTResultModel_t
| SchemeQueryResult_t.

(** The three concrete subclasses of [ModelList]. *)
Inductive list_class : Type :=
| ResourceList
| DatabaseList
| SchemeList.

(** Decoded JSON and class instances.  A [dict] is an association list in
    insertion order; an instance carries its class and its attributes; an
    instance of a [ModelList] subclass carries its [data] list; a
    [pydantic.AnyUrl] carries the text that [str] gives for it, and is not
    a string: it equals none, has no [split], and is not a container. *)
Inductive value : Type :=
| VNone
| VBool (b : bool)
| VInt (n : Z)
| VStr (s : string)
| VList (l : list value)
| VDict (d : list (string * value))
| VObj (c : class_name) (attrs : list (string * value))
| VModelList (c : list_class) (data : list value)
| VUrl (s : string).

Definition class_eqb (a b : class_name) : bool :=
  match a, b with
  | ApiResourceModel_t, ApiResourceModel_t
  | ApiResourceCollectionModel_t, ApiResourceCollectionModel_t
  | SchemeCollectionModel_t, SchemeCollectionModel_t
  | DatabaseModel_t, DatabaseModel_t
  | SchemeModel_t, SchemeModel_t
  | TaxonModel_t, TaxonModel_t
  | AlleleExactResult_t, AlleleExactResult_t
  | SequenceQueryResult_t, SequenceQueryResult_t
  | rMLSTResultModel_t, rMLSTResultModel_t
  | SchemeQueryResult_t, SchemeQueryResult_t => true
  | _, _ => false
  end.

(** *** Dictionaries *)

Definition dict (V : Type) : Type := list (string * V).

Fixpoint dict_get {V} (k : string) (d : dict V) : option V :=
  match d with
  | [] => None
  | (k', v) :: d' => if String.eqb k k' then Some v else dict_get k d'
  end.

(** [d[k] = v]: an existing key keeps its position and takes the new
    value, a new key goes last. *)
Fixpoint dict_set {V} (k : string) (v : V) (d : dict V) : dict V :=
  match d with
  | [] => [(k, v)]
  | (k', v') :: d' =>
      if String.eqb k k' then (k, v) :: d' else (k', v') :: dict_set k v d'
  end.

Definition dict_keys {V} (d : dict V) : list string := map fst d.

(** *** Strings

    A string is a sequence of characters, and a character is a code point
    below 256, which is what an [ascii] holds. *)

(** [p in s] on strings. *)
Fixpoint contains (p s : string) : bool :=
  if prefix p s then true
  else match s with
       | EmptyString => false
       | String _ s' => contains p s'
       end.

Fixpoint drop (n : nat) (s : string) : string :=
  match n, s with
  | O, _ => s
  | S n', String _ s' => drop n' s'
  | S _, EmptyString => EmptyString
  end.

(** [s.split(sep)] for a non-empty separator [sep]; [fuel] bounds the number
    of characters still to be read. *)
Fixpoint split_fuel (fuel : nat) (sep s : string) : list string :=
  match fuel with
  | O => [s]
  | S fuel' =>
      match s with
      | EmptyString => [EmptyString]
      | String c s' =>
          if prefix sep s
          then EmptyString :: split_fuel fuel' sep (drop (String.length sep) s)
          else match split_fuel fuel' sep s' with
               | [] => [String c EmptyString]
               | w :: ws => String c w :: ws
               end
      end
  end.

Definition split (sep s : string) : list string :=
  split_fuel (String.length s) sep s.

(** The characters of a string, each as a string. *)
Fixpoint chars (s : string) : list string :=
  match s with
  | EmptyString => []
  | String c s' => String c EmptyString :: chars s'
  end.

(** [s.split('/')[-1]]; the list that [split] returns is never empty. *)
Definition last_segment (s : string) : string :=
  last (split "/" s) EmptyString.

(** [re.sub(pat, '', s)] for a pattern without metacharacters: the
    non-overlapping occurrences of [pat] are removed, leftmost first. *)
Fixpoint remove_all_fuel (fuel : nat) (pat s : string) : string :=
  match fuel with
  | O => s
  | S fuel' =>
      match s with
      | EmptyString => EmptyString
      | String c s' =>
          if prefix pat s
          then remove_all_fuel fuel' pat (drop (String.length pat) s)
          else String c (remove_all_fuel fuel' pat s')
      end
  end.

Definition remove_all (pat s : string) : string :=
  match pat with
  | EmptyString => s
  | _ => remove_all_fuel (String.length s) pat s
  end.

(** [c.isspace()]: the white space among the code points below 256, the
    next line (133) and the no-break space (160) included. *)
Definition is_space (c : ascii) : bool :=
  match nat_of_ascii c with
  | 9 | 10 | 11 | 12 | 13 | 28 | 29 | 30 | 31 | 32 | 133 | 160 => true
  | _ => false
  end.

Fixpoint lstrip (s : string) : string :=
  match s with
  | String c s' => if is_space c then lstrip s' else s
  | EmptyString => EmptyString
  end.

Fixpoint rstrip (s : string) : string :=
  match s with
  | EmptyString => EmptyString
  | String c s' =>
      match rstrip s' with
      | EmptyString => if is_space c then EmptyString else String c EmptyString
      | r => String c r
      end
  end.

(** [s.strip()]. *)
Definition strip (s : string) : string := rstrip (lstrip s).

(** *** Operators on dynamic values *)

(** [p == v] for a string [p]: only an equal string is equal to it. *)
Definition eq_str (p : string) (v : value) : bool :=
  match v with
  | VStr s => String.eqb p s
  | _ => false
  end.

(** The attribute an instance iterates over, for the two collection models
    that define [__iter__]. *)
Definition iter_attr (c : class_name) : option string :=
  match c with
  | ApiResourceCollectionModel_t => Some "resources"
  | SchemeCollectionModel_t => Some "schemes"
  | _ => None
  end.

(** [p in v] for a string [p]: substring test on a string, membership on a
    list, key membership on a dict, membership by iteration on a
    [ModelList] (through [__getitem__]) and on a model with [__iter__];
    [TypeError] where [v] is not a container. *)
Definition str_in (p : string) (v : value) : result bool :=
  match v with
  | VStr s => Ok (contains p s)
  | VList l => Ok (existsb (eq_str p) l)
  | VDict d => Ok (existsb (fun kv => String.eqb p (fst kv)) d)
  | VModelList _ data => Ok (existsb (eq_str p) data)
  | VObj c attrs =>
      match iter_attr c with
      | Some a =>
          match dict_get a attrs with
          | Some (VModelList _ data) => Ok (existsb (eq_str p) data)
          | _ => Raise TypeError
          end
      | None => Raise TypeError
      end
  | _ => Raise TypeError
  end.

(** The elements a [for] loop or a comprehension draws from [v]. *)
Definition iterate (v : value) : result (list value) :=
  match v with
  | VList l => Ok l
  | VStr s => Ok (map VStr (chars s))
  | VDict d => Ok (map VStr (dict_keys d))
  | VModelList _ data => Ok data
  | VObj c attrs =>
      match iter_attr c with
      | Some a =>
          match dict_get a attrs with
          | Some (VModelList _ data) => Ok data
          | _ => Raise TypeError
          end
      | None => Raise TypeError
      end
  | _ => Raise TypeError
  end.

(** Truth value of a value, as [if v:] takes it. *)
Definition is_true (v : value) : bool :=
  match v with
  | VNone => false
  | VBool b => b
  | VInt n => negb (Z.eqb n 0)
  | VStr s => negb (String.eqb s EmptyString)
  | VList l => negb (Nat.eqb (List.length l) 0)
  | VDict d => negb (Nat.eqb (List.length d) 0)
  | VObj _ _ => true
  | VModelList _ data => negb (Nat.eqb (List.length data) 0)
  | VUrl _ => true
  end.

(** [getattr(v, a)] for the data attributes of the modelled classes. *)
Definition getattr (v : value) (a : string) : result value :=
  match v with
  | VObj _ attrs =>
      match dict_get a attrs with
      | Some x => Ok x
      | None => Raise AttributeError
      end
  | VModelList _ data =>
      if String.eqb a "data" then Ok (VList data) else Raise AttributeError
  | _ => Raise AttributeError
  end.

(** Truth value of an optional string argument: [None] and [''] are false. *)
Definition truthy (s : option string) : option string :=
  match s with
  | Some EmptyString => None
  | Some s' => Some s'
  | None => None
  end.

(** A list comprehension [[x for x in l if f x]] whose test may raise. *)
Fixpoint filter_m (f : value -> result bool) (l : list value)
  : result (list value) :=
  match l with
  | [] => Ok []
  | x :: l' =>
      bind (f x) (fun b =>
      bind (filter_m f l') (fun r =>
      Ok (if b then x :: r else r)))
  end.

(** A list comprehension [[f x for x in l]] whose body may raise. *)
Fixpoint map_m {A B} (f : A -> result B) (l : list A) : result (list B) :=
  match l with
  | [] => Ok []
  | x :: l' =>
      bind (f x) (fun y =>
      bind (map_m f l') (fun r =>
      Ok (y :: r)))
  end.

End Py.

Import Py.

Notation "x <- e ;; k" := (bind e (fun x => k))
  (at level 61, e at next level, right associativity).

(** ** [ModelList]: the typed, searchable collection *)

Module ModelList.

(** An instance: the concrete subclass it belongs to and its [data]. *)
Record t : Type := mk { cls : list_class; data : list value }.

(** [_get_model] of each subclass. *)
Definition _get_model (c : list_class) : class_name :=
  match c with
  | ResourceList => ApiResourceModel_t
  | DatabaseList => DatabaseModel_t
  | SchemeList => SchemeModel_t
  end.

(** [_set_url_attr] of each subclass. *)
Definition _set_url_attr (c : list_class) : option string :=
  match c with
  | ResourceList => None
  | DatabaseList => Some "href"
  | SchemeList => Some "scheme"
  end.

(** [isinstance(v, model)] for a model class; none of the three model
    classes has a subclass. *)
Definition isinstance (v : value) (model : class_name) : bool :=
  match v with
  | VObj c _ => class_eqb c model
  | _ => false
  end.

(** [__init__]: stores the list and the model class, and nothing else. *)
Definition __init__ (c : list_class) (data : list value) : result t :=
  Ok (mk c data).

Definition _validate_input (c : list_class) (input_list : value)
  : result unit :=
  match input_list with
  | VList l =>
      if forallb (fun input => isinstance input (_get_model c)) l
      then Ok tt
      else Raise TypeError
  | _ => Raise TypeError
  end.

(** [__post_init__] is defined by the class, but [ModelList] is a plain class
    and not a dataclass: [__init__] does not call it. *)
Definition __post_init__ (self : t) : result unit :=
  _validate_input (cls self) (VList (data self)).

Section Search.

(** The [re] module: compiled patterns, [re.compile] ([None] where it raises
    [re.error]) and [regex.search] on a string. *)
Variable regex : Type.
Variable re_compile : string -> option regex.
Variable re_search : regex -> string -> bool.

(** [regex.search(v)]: [TypeError] unless [v] is a string. *)
Definition regex_search (r : regex) (v : value) : result bool :=
  match v with
  | VStr s => Ok (re_search r s)
  | _ => Raise TypeError
  end.

Definition search (self : t) (attr : string)
  (pattern category : option string) (exact_match use_regex : bool)
  : result t :=
  let filtered_data := Ok (data self) in
  let filtered_data :=
    match truthy pattern with
    | Some pattern =>
        if use_regex then
          match re_compile pattern with
          | None => Raise ReError
          | Some regex =>
              fd <- filtered_data ;;
              filter_m (fun data => v <- getattr data attr ;;
                                    regex_search regex v) fd
          end
        else if exact_match then
          fd <- filtered_data ;;
          filter_m (fun data => v <- getattr data attr ;;
                                Ok (eq_str pattern v)) fd
        else
          fd <- filtered_data ;;
          filter_m (fun data => v <- getattr data attr ;;
                                str_in pattern v) fd
    | None => filtered_data
    end in
  let filtered_data :=
    match truthy category with
    | Some category =>
        fd <- filtered_data ;;
        filter_m (fun data => v <- getattr data "category" ;;
                              Ok (eq_str category v)) fd
    | None => filtered_data
    end in
  fd <- filtered_data ;;
  __init__ (cls self) fd.

End Search.

Definition __len__ (self : t) : nat := List.length (data self).

Definition get_content (self : t) : list value := data self.

(** [append] and [extend] check the type before they change [data]. *)
Definition append (self : t) (v : value) : result t :=
  if isinstance v (_get_model (cls self))
  then Ok (mk (cls self) (data self ++ [v]))
  else Raise ValueError.

Definition extend (self : t) (l : list value) : result t :=
  _ <- _validate_input (cls self) (VList l) ;;
  Ok (mk (cls self) (data self ++ l)).

Definition from_list_of_model_lists (c : list_class) (data : list t)
  : result t :=
  let data_list := map ModelList.data data in
  let flatten_list := concat data_list in
  __init__ c flatten_list.

Definition get_urls (self : t) : result (list value) :=
  match _set_url_attr (cls self) with
  | None => Raise ValueError
  | Some url_attr => map_m (fun data => getattr data url_attr) (data self)
  end.

Definition from_json (c : list_class) (json : value) : result t :=
  match json with
  | VList l => __init__ c l
  | _ => Raise ValueError
  end.

(** The instance as a value, where it is stored in an attribute. *)
Definition to_value (self : t) : value := VModelList (cls self) (data self).

End ModelList.

(** ** The entity models of [models.py] *)

Module Models.

Inductive SchemeCategory : Type := MLST | CGMLST | SC_OTHERS.

Inductive DatabaseCategory : Type :=
  SEQDEF | SEQDEF_LARGE | ISOLATES | DC_OTHERS.

(** The [value] of an enumeration member. *)
Definition scheme_value (c : SchemeCategory) : string :=
  match c with
  | MLST => "MLST"
  | CGMLST => "cgMLST"
  | SC_OTHERS => "others"
  end.

Definition database_value (c : DatabaseCategory) : string :=
  match c with
  | SEQDEF => "seqdef"
  | SEQDEF_LARGE => "sequence/profile definitions"
  | ISOLATES => "isolates"
  | DC_OTHERS => "others"
  end.

Definition determine_category (description : string) : string :=
  if contains (scheme_value CGMLST) description then scheme_value CGMLST
  else if contains (scheme_value MLST) description then scheme_value MLST
  else scheme_value SC_OTHERS.

(** *** Dataclass construction

    The models are pydantic dataclasses: the generated constructor binds the
    keyword arguments to the declared fields, checks every supplied value
    against the field's annotation, and then runs [__post_init__].  The check
    is modelled on decoded JSON of the declared shape; a value of another
    shape is a validation error (pydantic's conversions between shapes are
    not modelled). *)

Inductive pytype : Type :=
| TStr
| TInt
| TBool
| TUrl
| TDict
| TEnum (values : list string)
| TList (t : pytype)
| TOptional (t : pytype).

Record field : Type :=
  mk_field { f_name : string; f_type : pytype; f_default : option value }.

(** A field without a default, and one whose default is [None]. *)
Definition required (n : string) (t : pytype) : field := mk_field n t None.
Definition optional (n : string) (t : pytype) : field :=
  mk_field n t (Some VNone).

Fixpoint all_some {A} (l : list (option A)) : option (list A) :=
  match l with
  | [] => Some []
  | None :: _ => None
  | Some x :: l' =>
      match all_some l' with
      | Some r => Some (x :: r)
      | None => None
      end
  end.

Fixpoint has_dup (l : list string) : bool :=
  match l with
  | [] => false
  | k :: l' => existsb (String.eqb k) l' || has_dup l'
  end.

(** An exception of [__post_init__], as the generated constructor passes it
    on: a [ValueError] comes out as a validation error, any other exception
    as it is. *)
Definition run_post_init {A} (r : result A) : result A :=
  match r with
  | Raise ValueError => Raise ValidationError
  | _ => r
  end.

Section Construction.

(** [pydantic.AnyUrl]: the text of the URL that a string is parsed to,
    [None] where the string is not a URL. *)
Variable any_url : string -> option string.

(** The lax conversions of pydantic to an [int] and to a [bool], of a JSON
    scalar that is of another shape (a numeric string for an [int], and so
    on): the converted value, [None] where the value is rejected. *)
Variable lax : pytype -> value -> option value.

(** The text of the URL that a value is parsed to as an [AnyUrl]: a string is
    parsed, a URL is taken as it is, anything else is rejected. *)
Definition url_text (v : value) : option string :=
  match v with
  | VStr s => any_url s
  | VUrl s => Some s
  | _ => None
  end.

(** The validated form of [v] for a field of type [t]. *)
Fixpoint validate (t : pytype) (v : value) : option value :=
  match t, v with
  | TStr, VStr s => Some (VStr s)
  | TInt, VInt n => Some (VInt n)
  | TInt, (VBool _ | VStr _) => lax TInt v
  | TBool, VBool b => Some (VBool b)
  | TBool, (VInt _ | VStr _) => lax TBool v
  | TUrl, _ => option_map VUrl (url_text v)
  | TDict, VDict d => Some (VDict d)
  | TEnum values, VStr s =>
      if existsb (String.eqb s) values then Some (VStr s) else None
  | TList t', VList l => option_map VList (all_some (map (validate t') l))
  | TOptional _, VNone => Some VNone
  | TOptional t', _ => validate t' v
  | _, _ => None
  end.

(** The call of the class with keyword arguments, up to [__post_init__]:
    the attributes in the order of the declaration.  A keyword given twice
    is Python's [TypeError]; a keyword that is no field is ignored; a
    missing field and a value that is not valid for its field are rejected
    by the generated constructor. *)
Definition bind_field (kwargs : dict value) (f : field)
  : result (string * value) :=
  match dict_get (f_name f) kwargs with
  | Some v =>
      match validate (f_type f) v with
      | Some v' => Ok (f_name f, v')
      | None => Raise ValidationError
      end
  | None =>
      match f_default f with
      | Some d => Ok (f_name f, d)
      | None => Raise ValidationError
      end
  end.

Definition dataclass_init (fields : list field) (kwargs : dict value)
  : result (dict value) :=
  if has_dup (dict_keys kwargs) then Raise TypeError
  else map_m (bind_field kwargs) fields.

(** The call of [api_model] with [v] unpacked as keyword arguments: the
    unpacked argument has to be a mapping. *)
Definition call_with (api_model : dict value -> result value) (v : value)
  : result value :=
  match v with
  | VDict kwargs => api_model kwargs
  | _ => Raise TypeError
  end.

(** [self.attr] on the attributes of the instance under construction. *)
Definition self_attr (self : dict value) (a : string) : result value :=
  match dict_get a self with
  | Some v => Ok v
  | None => Raise AttributeError
  end.

(** [ApiColecctionModel._set_list_model]: any exception of the element
    constructor is turned into a [ValueError]. *)
Definition _set_list_model (self : dict value) (attr : string)
  (api_model : dict value -> result value) (list_model : list_class)
  : result (dict value) :=
  attr_values <- self_attr self attr ;;
  match attr_values with
  | VList l =>
      match map_m (call_with api_model) l with
      | Raise _ => Raise ValueError
      | Ok attr_list =>
          list_ins <- ModelList.__init__ list_model attr_list ;;
          Ok (dict_set attr (ModelList.to_value list_ins) self)
      end
  | _ => Raise ValueError
  end.

(** *** [DatabaseModel] *)

Definition DatabaseModel_fields : list field :=
  [ required "description" TStr;
    required "href" TUrl;
    required "name" TStr;
    optional "category"
      (TOptional (TEnum (map database_value
                             [SEQDEF; SEQDEF_LARGE; ISOLATES; DC_OTHERS])));
    optional "subject" (TOptional TStr) ].

Definition _determine_category (name : string) : string :=
  if contains (database_value SEQDEF) name then database_value SEQDEF
  else if contains (database_value ISOLATES) name then database_value ISOLATES
  else database_value DC_OTHERS.

Definition _parse_subject (description : string) : string :=
  let patterns_to_remove :=
    [ "REST API access to ";
      " database";
      database_value ISOLATES;
      database_value SEQDEF_LARGE;
      database_value SEQDEF ] in
  let subject :=
    fold_left (fun subject pattern => remove_all pattern subject)
              patterns_to_remove description in
  strip subject.

(** The text of a string attribute; the fields read here are validated as
    strings before [__post_init__] runs. *)
Definition str_attr (self : dict value) (a : string) : result string :=
  v <- self_attr self a ;;
  match v with
  | VStr s => Ok s
  | _ => Raise TypeError
  end.

Definition DatabaseModel_post_init (self : dict value)
  : result (dict value) :=
  name <- str_attr self "name" ;;
  let self := dict_set "category" (VStr (_determine_category name)) self in
  description <- str_attr self "description" ;;
  Ok (dict_set "subject" (VStr (_parse_subject description)) self).

Definition DatabaseModel_init (kwargs : dict value) : result value :=
  self <- dataclass_init DatabaseModel_fields kwargs ;;
  self <- run_post_init (DatabaseModel_post_init self) ;;
  Ok (VObj DatabaseModel_t self).

(** *** [SchemeModel] *)

Definition SchemeModel_fields : list field :=
  [ required "scheme" TUrl;
    required "description" TStr;
    optional "category"
      (TOptional (TEnum (map scheme_value [MLST; CGMLST; SC_OTHERS])));
    optional "query_endpoint" (TOptional TStr) ].

(** The text an f-string gives for a URL attribute; the field read here is
    validated as a URL before [__post_init__] runs. *)
Definition url_attr (self : dict value) (a : string) : result string :=
  v <- self_attr self a ;;
  match v with
  | VUrl s => Ok s
  | VStr s => Ok s
  | _ => Raise TypeError
  end.

Definition SchemeModel_post_init (self : dict value) : result (dict value) :=
  description <- str_attr self "description" ;;
  let self := dict_set "category" (VStr (determine_category description))
                       self in
  scheme <- url_attr self "scheme" ;;
  Ok (dict_set "query_endpoint" (VStr (scheme ++ "/sequence")) self).

Definition SchemeModel_init (kwargs : dict value) : result value :=
  self <- dataclass_init SchemeModel_fields kwargs ;;
  self <- run_post_init (SchemeModel_post_init self) ;;
  Ok (VObj SchemeModel_t self).

(** *** [ApiResourceModel] and [ApiResourceCollectionModel] *)

Definition ApiResourceModel_fields : list field :=
  [ required "databases" (TList TDict);
    required "description" TStr;
    required "name" TStr;
    optional "long_description" (TOptional TStr) ].

Definition ApiResourceModel_post_init (self : dict value)
  : result (dict value) :=
  _set_list_model self "databases" DatabaseModel_init DatabaseList.

Definition ApiResourceModel_init (kwargs : dict value) : result value :=
  self <- dataclass_init ApiResourceModel_fields kwargs ;;
  self <- run_post_init (ApiResourceModel_post_init self) ;;
  Ok (VObj ApiResourceModel_t self).

Definition ApiResourceCollectionModel_fields : list field :=
  [ optional "resources" (TList TDict) ].

Definition ApiResourceCollectionModel_post_init (self : dict value)
  : result (dict value) :=
  _set_list_model self "resources" ApiResourceModel_init ResourceList.

Definition ApiResourceCollectionModel_init (kwargs : dict value)
  : result value :=
  self <- dataclass_init ApiResourceCollectionModel_fields kwargs ;;
  self <- run_post_init (ApiResourceCollectionModel_post_init self) ;;
  Ok (VObj ApiResourceCollectionModel_t self).


(** *** Query results *)

Definition TaxonModel_fields : list field :=
  [ required "taxon" TStr;
    required "taxonomy" TStr;
    required "support" TInt;
    required "rank" TStr ].

Definition TaxonModel_post_init (self : dict value) : result (dict value) :=
  taxonomy <- str_attr self "taxonomy" ;;
  Ok (dict_set "taxonomy" (VList (map VStr (split " > " taxonomy))) self).

Definition TaxonModel_init (kwargs : dict value) : result value :=
  self <- dataclass_init TaxonModel_fields kwargs ;;
  self <- run_post_init (TaxonModel_post_init self) ;;
  Ok (VObj TaxonModel_t self).

Definition AlleleExactResult_fields : list field :=
  [ required "allele_id" TInt;
    mk_field "href" TStr (Some VNone);
    mk_field "allele_name" TStr (Some VNone);
    mk_field "start" TInt (Some VNone);
    mk_field "end" TInt (Some VNone);
    mk_field "orientation" TStr (Some VNone);
    mk_field "length" TInt (Some VNone);
    mk_field "contig" TStr (Some VNone);
    mk_field "linked_data" TDict (Some VNone) ].

Definition AlleleExactResult_init (kwargs : dict value) : result value :=
  self <- dataclass_init AlleleExactResult_fields kwargs ;;
  Ok (VObj AlleleExactResult_t self).

Definition SequenceQueryResult_fields : list field :=
  [ mk_field "exact_matches" TDict (Some VNone);
    mk_field "partial_matches" TDict (Some VNone);
    mk_field "fields" TDict (Some VNone) ].

(** [self.exact_matches.items()]: only a dict has [items]. *)
Definition items (v : value) : result (dict value) :=
  match v with
  | VDict d => Ok d
  | _ => Raise AttributeError
  end.

(** The body of the loop over the items, for one item: the results built
    from [matches] are appended to [exact_matches]. *)
Definition extend_matches (exact_matches : list value)
  (item : string * value) : result (list value) :=
  let (allele, matches) := item in
  values <- iterate matches ;;
  new <- map_m (call_with (fun value =>
                  AlleleExactResult_init (("allele_name", VStr allele)
                                            :: value)))
               values ;;
  Ok (exact_matches ++ new)%list.

Fixpoint for_items (exact_matches : list value) (its : dict value)
  : result (list value) :=
  match its with
  | [] => Ok exact_matches
  | item :: its' =>
      exact_matches <- extend_matches exact_matches item ;;
      for_items exact_matches its'
  end.

Definition SequenceQueryResult_post_init (self : dict value)
  : result (dict value) :=
  let exact_matches := [] in
  raw <- self_attr self "exact_matches" ;;
  its <- items raw ;;
  exact_matches <- for_items exact_matches its ;;
  Ok (dict_set "exact_matches" (VList exact_matches) self).

Definition SequenceQueryResult_init (kwargs : dict value) : result value :=
  self <- dataclass_init SequenceQueryResult_fields kwargs ;;
  self <- run_post_init (SequenceQueryResult_post_init self) ;;
  Ok (VObj SequenceQueryResult_t self).

Definition rMLSTResultModel_fields : list field :=
  (SequenceQueryResult_fields
     ++ [ mk_field "taxon_prediction" (TList TDict) (Some VNone) ])%list.

Definition rMLSTResultModel_post_init (self : dict value)
  : result (dict value) :=
  self <- SequenceQueryResult_post_init self ;;
  taxon_prediction <- self_attr self "taxon_prediction" ;;
  if is_true taxon_prediction then
    values <- iterate taxon_prediction ;;
    taxa <- map_m (call_with TaxonModel_init) values ;;
    Ok (dict_set "taxon_prediction" (VList taxa) self)
  else Ok self.

Definition rMLSTResultModel_init (kwargs : dict value) : result value :=
  self <- dataclass_init rMLSTResultModel_fields kwargs ;;
  self <- run_post_init (rMLSTResultModel_post_init self) ;;
  Ok (VObj rMLSTResultModel_t self).

(** [SchemeQueryResult] adds nothing to [SequenceQueryResult]. *)
Definition SchemeQueryResult_init (kwargs : dict value) : result value :=
  self <- dataclass_init SequenceQueryResult_fields kwargs ;;
  self <- run_post_init (SequenceQueryResult_post_init self) ;;
  Ok (VObj SchemeQueryResult_t self).

End Construction.

End Models.

(** ** The scheme navigator of [api.py] *)

Module FullSchemeApi.

(** [models.FullSchemeModel]: the scheme a navigator is built on.  The
    optional metadata fields, which all default to [None] and which the
    navigation below does not read, are left out. *)
Record FullSchemeModel : Type := mk_model {
  id : Z;
  loci : list string;
  description : string;
  locus_count : Z;
  has_primary_key_field : bool;
  category : option string
}.

(** [FullSchemeModel.__post_init__] *)
Definition FullSchemeModel_post_init (self : FullSchemeModel)
  : FullSchemeModel :=
  mk_model (id self) (loci self) (description self) (locus_count self)
           (has_primary_key_field self)
           (Some (Models.determine_category (description self))).

Section Transport.

(** The FASTA records of a locus, and [LociApi.from_url(url).get_alleles()],
    which fetches the locus and then its FASTA file. *)
Variable fasta : Type.
Variable LociApi_get_alleles : string -> result fasta.

Record t : Type := mk { model : FullSchemeModel; _indexed_locis : dict string }.

(** The dict comprehension of [_index_loci]: the entries are set one URL
    after the other. *)
Definition _index_loci (model : FullSchemeModel) : dict string :=
  fold_left (fun locis loci => dict_set (last_segment loci) loci locis)
            (loci model) [].

Definition __init__ (model : FullSchemeModel) : t :=
  mk model (_index_loci model).

Definition list_loci (self : t) : list string :=
  dict_keys (_indexed_locis self).

(** What a call leaves behind: the lines it printed, and the value it
    returned ([None] of Python is [None] here) or the exception it raised. *)
Definition get_alleles_fasta (self : t) (loci : string)
  : list string * result (option fasta) :=
  match dict_get loci (_indexed_locis self) with
  | Some url =>
      ([], alleles <- LociApi_get_alleles url ;; Ok (Some alleles))
  | None => (["Loci does not exits"], Ok None)
  end.

End Transport.

End FullSchemeApi.

(** ** Predicates used in the statements *)

(** [p] occurs in [s]. *)
Definition Substring (p s : string) : Prop :=
  exists a b, s = (a ++ p ++ b)%string.

(** The element has the attribute [attr], and its value is a string. *)
Definition has_text_attr (attr : string) (e : value) : Prop :=
  exists s, getattr e attr = Ok (VStr s).

(** The element has the attribute [attr]. *)
Definition has_attr (attr : string) (e : value) : Prop :=
  exists v, getattr e attr = Ok v.

(** The attribute [attr] of the element is a string that passes [test]. *)
Definition attr_sat (test : string -> bool) (attr : string) (e : value)
  : bool :=
  match getattr e attr with
  | Ok (VStr s) => test s
  | _ => false
  end.

(** A mapping from locus names to lists of match objects, as decoded JSON. *)
Definition matches_value (mapping : list (string * list (dict value)))
  : value :=
  VDict (map (fun item => (fst item, VList (map VDict (snd item)))) mapping).

(** The match objects of a mapping in their order, each with the locus name
    it is filed under. *)
Definition tagged_matches (mapping : list (string * list (dict value)))
  : list (string * dict value) :=
  flat_map (fun item => map (pair (fst item)) (snd item)) mapping.

(** An optional dict argument as a keyword argument and as an attribute. *)
Definition keyword (name : string) (arg : option (dict value)) : dict value :=
  match arg with
  | Some d => [(name, VDict d)]
  | None => []
  end.

Definition attribute (arg : option (dict value)) : value :=
  match arg with
  | Some d => VDict d
  | None => VNone
  end.

(** [t] is what follows the final "/" of [u]: all of [u] where [u] has no
    "/". *)
Definition after_final_slash (u t : string) : Prop :=
  ~ Substring "/" t
  /\ (u = t \/ exists pre, u = (pre ++ "/" ++ t)%string).

(** ** Sample data, used where a statement is run on a concrete input *)

Module Samples.

(** A stand-in for [re] that reads its pattern literally: the search is a
    substring test.  It agrees with [re] on patterns without metacharacters. *)
Definition literal_compile (p : string) : option string := Some p.
Definition literal_search (r s : string) : bool := contains r s.

(** A stand-in for [AnyUrl] that accepts the strings starting with [http]. *)
Definition http_url (s : string) : option string :=
  if prefix "http" s then Some s else None.

(** A stand-in for the lax conversions that reads a string of decimal digits
    as an [int], takes a [bool] for one, and rejects the rest. *)
Definition decimal_lax (t : Models.pytype) (v : value) : option value :=
  match t, v with
  | Models.TInt, VStr s =>
      option_map (fun n => VInt (Z.of_int n)) (NilZero.int_of_string s)
  | Models.TInt, VBool b => Some (VInt (if b then 1%Z else 0%Z))
  | _, _ => None
  end.

Definition db_seqdef : value :=
  VObj DatabaseModel_t
    [ ("description", VStr "REST API access to PubMLST Neisseria spp. sequence/profile definitions database");
      ("href", VUrl "https://rest.pubmlst.org/db/pubmlst_neisseria_seqdef");
      ("name", VStr "pubmlst_neisseria_seqdef");
      ("category", VStr "seqdef");
      ("subject", VStr "PubMLST Neisseria spp.") ].

Definition db_isolates : value :=
  VObj DatabaseModel_t
    [ ("description", VStr "REST API access to PubMLST Neisseria spp. isolates database");
      ("href", VUrl "https://rest.pubmlst.org/db/pubmlst_neisseria_isolates");
      ("name", VStr "pubmlst_neisseria_isolates");
      ("category", VStr "isolates");
      ("subject", VStr "PubMLST Neisseria spp.") ].

Definition scheme_mlst : value :=
  VObj SchemeModel_t
    [ ("scheme", VUrl "https://rest.pubmlst.org/db/pubmlst_neisseria_seqdef/schemes/1");
      ("description", VStr "MLST");
      ("category", VStr "MLST");
      ("query_endpoint", VStr "https://rest.pubmlst.org/db/pubmlst_neisseria_seqdef/schemes/1/sequence") ].

Definition resource_neisseria : value :=
  VObj ApiResourceModel_t
    [ ("databases", VModelList DatabaseList [db_seqdef; db_isolates]);
      ("description", VStr "Neisseria spp.");
      ("name", VStr "pubmlst_neisseria");
      ("long_description", VNone) ].

Definition databases : ModelList.t :=
  ModelList.mk DatabaseList [db_seqdef; db_isolates].

(** The two locus URLs of the specification's example, and two URLs that end
    in the same segment. *)
Definition scheme_two_loci : FullSchemeApi.FullSchemeModel :=
  FullSchemeApi.FullSchemeModel_post_init
    (FullSchemeApi.mk_model 1
       [ "https://rest.pubmlst.org/db/pubmlst_neisseria_seqdef/loci/abc123";
         "https://rest.pubmlst.org/db/pubmlst_neisseria_seqdef/loci/xyz789" ]
       "MLST" 2 true None).

Definition scheme_shared_segment : FullSchemeApi.FullSchemeModel :=
  FullSchemeApi.FullSchemeModel_post_init
    (FullSchemeApi.mk_model 1
       [ "https://rest.pubmlst.org/db/a_seqdef/loci/abc123";
         "https://rest.pubmlst.org/db/b_seqdef/loci/abc123" ]
       "MLST" 2 true None).

(** The mapping of the specification's example of a query result. *)
Definition two_matches : list (string * list (dict value)) :=
  [ ("abc", [[("allele_id", VInt 1)]]);
    ("xyz", [[("allele_id", VInt 2)]]) ].

End Samples.

(** * More of the code *)

(** ** [ModelList]: positional access *)

Module Indexing.

(** What the positional methods raise: the [TypeError] for an index that is
    not an integer, the [TypeError] for a value that is not an instance of
    the model, and the [IndexError] of the underlying list. *)
Inductive index_exn : Type :=
| Index_TypeError
| Value_TypeError
| IndexError.

Inductive outcome (A : Type) : Type :=
| Done (a : A)
| Fails (e : index_exn).
Arguments Done {A} a.
Arguments Fails {A} e.

(** [isinstance(index, int)]: an [int], or a [bool], which is one. *)
Definition as_int (index : value) : option Z :=
  match index with
  | VInt n => Some n
  | VBool b => Some (if b then 1%Z else 0%Z)
  | _ => None
  end.

(** The position an integer index denotes in a list of length [len]: a
    negative index counts from the end. *)
Definition position (n : Z) (len : nat) : option nat :=
  if (0 <=? n)%Z then
    if (n <? Z.of_nat len)%Z then Some (Z.to_nat n) else None
  else
    if (- Z.of_nat len <=? n)%Z then Some (Z.to_nat (Z.of_nat len + n))
    else None.

Fixpoint replace_at {A} (i : nat) (v : A) (l : list A) : list A :=
  match l, i with
  | [], _ => []
  | _ :: l', O => v :: l'
  | x :: l', S i' => x :: replace_at i' v l'
  end.

Fixpoint remove_at {A} (i : nat) (l : list A) : list A :=
  match l, i with
  | [], _ => []
  | _ :: l', O => l'
  | x :: l', S i' => x :: remove_at i' l'
  end.

Definition __getitem__ (self : ModelList.t) (index : value) : outcome value :=
  match as_int index with
  | Some n =>
      match position n (List.length (ModelList.data self)) with
      | Some i =>
          match nth_error (ModelList.data self) i with
          | Some v => Done v
          | None => Fails IndexError
          end
      | None => Fails IndexError
      end
  | None => Fails Index_TypeError
  end.

Definition __setitem__ (self : ModelList.t) (index : value) (v : value)
  : outcome ModelList.t :=
  match as_int index with
  | Some n =>
      if ModelList.isinstance v (ModelList._get_model (ModelList.cls self))
      then
        match position n (List.length (ModelList.data self)) with
        | Some i =>
            Done (ModelList.mk (ModelList.cls self)
                    (replace_at i v (ModelList.data self)))
        | None => Fails IndexError
        end
      else Fails Value_TypeError
  | None => Fails Index_TypeError
  end.

Definition __delitem__ (self : ModelList.t) (index : value)
  : outcome ModelList.t :=
  match as_int index with
  | Some n =>
      match position n (List.length (ModelList.data self)) with
      | Some i =>
          Done (ModelList.mk (ModelList.cls self)
                  (remove_at i (ModelList.data self)))
      | None => Fails IndexError
      end
  | None => Fails Index_TypeError
  end.

End Indexing.

(** The collection passes the check of [_validate_input]: every element is
    an instance of the model of its class. *)
Definition homogeneous (self : ModelList.t) : Prop :=
  ModelList.__post_init__ self = Ok tt.

(** [sep.join(l)] *)
Fixpoint join (sep : string) (l : list string) : string :=
  match l with
  | [] => EmptyString
  | [x] => x
  | x :: l' => x ++ sep ++ join sep l'
  end.

(** [d.update(new)]: the items of [new] are set one after the other. *)
Definition dict_update {V} (d new : dict V) : dict V :=
  fold_left (fun acc kv => dict_set (fst kv) (snd kv) acc) new d.

(** ** [SchemeCollectionModel] and [ApiEndpointModel.from_json] *)

Module Endpoints.

Import Models.

Section Endpoints.

Variable any_url : string -> option string.
Variable lax : pytype -> value -> option value.

Definition SchemeCollectionModel_fields : list field :=
  [ required "records" TInt;
    required "schemes" (TList TDict) ].

Definition SchemeCollectionModel_post_init (self : dict value)
  : result (dict value) :=
  _set_list_model self "schemes" (SchemeModel_init any_url lax) SchemeList.

Definition SchemeCollectionModel_init (kwargs : dict value) : result value :=
  self <- dataclass_init any_url lax SchemeCollectionModel_fields kwargs ;;
  self <- run_post_init (SchemeCollectionModel_post_init self) ;;
  Ok (VObj SchemeCollectionModel_t self).

(** [ApiEndpointModel.from_json], for the class of name [name] and
    constructor [init]: the name is printed, then a dict is unpacked into the
    constructor and anything else is a [ValueError]. *)
Definition from_json (name : string) (init : dict value -> result value)
  (json : value) : list string * result value :=
  ([name],
   match json with
   | VDict kwargs => init kwargs
   | _ => Raise ValueError
   end).

End Endpoints.

End Endpoints.

(** ** The services of [api.py] *)

Module BigSdbApi.

Section BigSdbApi.

Variable regex : Type.
Variable re_compile : string -> option regex.
Variable re_search : regex -> string -> bool.

(** What [self.get_resources()] returns or raises: the transport and the
    assembly of the resource index. *)
Variable get_resources : result value.

(** [model.data], for the comprehension of [from_list_of_model_lists]: only
    a [ModelList] has the attribute. *)
Definition as_model_list (v : value) : result ModelList.t :=
  match v with
  | VModelList c d => Ok (ModelList.mk c d)
  | _ => Raise AttributeError
  end.

(** [pattern or category], as a condition. *)
Definition either (pattern category : option string) : bool :=
  match truthy pattern, truthy category with
  | None, None => false
  | _, _ => true
  end.

Definition get_databases (pattern category : option string)
  (exact_match use_regex : bool) : result ModelList.t :=
  resources <- get_resources ;;
  resources <- iterate resources ;;
  dbs <- map_m (fun resource => getattr resource "databases") resources ;;
  dbs <- map_m as_model_list dbs ;;
  databases <- ModelList.from_list_of_model_lists DatabaseList dbs ;;
  if either pattern category
  then ModelList.search regex re_compile re_search databases "subject"
         pattern category exact_match use_regex
  else Ok databases.

End BigSdbApi.

End BigSdbApi.

Module SchemeCollectionApi.

(** The argument [idx] of [return_scheme_by_idx]: an integer or a string. *)
Inductive index : Type :=
| IdxInt (n : Z)
| IdxStr (s : string).

(** [str(idx)] *)
Definition str (idx : index) : string :=
  match idx with
  | IdxInt n => NilZero.string_of_int (Z.to_int n)
  | IdxStr s => s
  end.

(** [scheme.scheme.split('/')[-1]]: only a string has [split]. *)
Definition scheme_key (scheme : value) : result string :=
  url <- getattr scheme "scheme" ;;
  match url with
  | VStr s => Ok (last_segment s)
  | _ => Raise AttributeError
  end.

(** The dict comprehension over the schemes. *)
Fixpoint index_schemes (index_dict : dict value) (schemes : list value)
  : result (dict value) :=
  match schemes with
  | [] => Ok index_dict
  | scheme :: schemes' =>
      key <- scheme_key scheme ;;
      index_schemes (dict_set key scheme index_dict) schemes'
  end.

(** [self.model] is the [SchemeCollectionModel] of the service. *)
Definition return_scheme_by_idx (model : value) (idx : index)
  : result value :=
  schemes <- iterate model ;;
  index_dict <- index_schemes [] schemes ;;
  let idx := str idx in
  match dict_get idx index_dict with
  | Some scheme => Ok scheme
  | None => Raise ValueError
  end.

End SchemeCollectionApi.

Module SchemeFastas.

Section SchemeFastas.

Variable fasta : Type.
Variable LociApi_get_alleles : string -> result fasta.

(** The dict comprehension of [get_scheme_fastas]: the calls are made one
    after the other, their printed lines add up, and the first exception
    ends the comprehension. *)
Fixpoint collect (self : FullSchemeApi.t) (keys : list string)
  (printed : list string) (fastas : dict (option fasta))
  : list string * result (dict (option fasta)) :=
  match keys with
  | [] => (printed, Ok fastas)
  | loci :: keys' =>
      let (lines, r) :=
        FullSchemeApi.get_alleles_fasta fasta LociApi_get_alleles self loci in
      match r with
      | Ok alleles =>
          collect self keys' (printed ++ lines)%list
            (dict_set loci alleles fastas)
      | Raise e => ((printed ++ lines)%list, Raise e)
      end
  end.

Definition get_scheme_fastas (self : FullSchemeApi.t)
  : list string * result (dict (option fasta)) :=
  collect self (dict_keys (FullSchemeApi._indexed_locis self)) [] [].

End SchemeFastas.

End SchemeFastas.

Module RestClient.

Record t : Type := mk {
  _api_key : string;
  ver : string;
  _ssl_verify : bool;
  _headers : dict string
}.

Definition __init__ (api_key ver : string) (ssl_verify : bool) : t :=
  mk api_key ver ssl_verify [].

Definition set_headers (self : t) (headers : dict string) : t :=
  mk (_api_key self) (ver self) (_ssl_verify self)
     (dict_update (_headers self) headers).

(** The headers [_do_request] sends: the headers of the call, or an empty
    dict where there are none, updated with those of the client. *)
Definition request_headers (self : t) (headers : option (dict string))
  : dict string :=
  let headers := match headers with
                 | Some ((_ :: _) as h) => h
                 | _ => []
                 end in
  dict_update headers (_headers self).

Section Transport.

(** [requests.request], with the keyword arguments passed through, and
    whether [raise_for_status] raises [HTTPError] on a response. *)
Variable response : Type.
Variable kwargs : Type.
Variable request :
  string -> string -> bool -> dict string -> kwargs -> result response.
Variable http_error : response -> bool.

Definition _do_request (self : t) (url http_method : string)
  (headers : option (dict string)) (kw : kwargs) : result response :=
  let headers := request_headers self headers in
  response <- request http_method url (_ssl_verify self) headers kw ;;
  if http_error response then Raise ApiServiceError else Ok response.

Definition get (self : t) (url : string) (headers : option (dict string))
  (kw : kwargs) : result response :=
  _do_request self url "GET" headers kw.

Definition post (self : t) (url : string) (headers : option (dict string))
  (kw : kwargs) : result response :=
  _do_request self url "POST" headers kw.

End Transport.

End RestClient.

(** ** More sample data *)

Module MoreSamples.

(** The JSON of a database that also gives values for the derived fields. *)
Definition db_kwargs : dict value :=
  [ ("name", VStr "pubmlst_neisseria_seqdef");
    ("description", VStr "REST API access to PubMLST Neisseria spp. sequence/profile definitions database");
    ("href", VStr "https://rest.pubmlst.org/db/pubmlst_neisseria_seqdef");
    ("category", VStr "others");
    ("subject", VStr "given") ].

(** The JSON of the same database with a keyword that is no field. *)
Definition db_kwargs_extra : dict value :=
  [ ("name", VStr "pubmlst_neisseria_seqdef");
    ("description", VStr "REST API access to PubMLST Neisseria spp. sequence/profile definitions database");
    ("href", VStr "https://rest.pubmlst.org/db/pubmlst_neisseria_seqdef");
    ("records", VInt 12) ].

Definition scheme_kwargs_extra : dict value :=
  [ ("scheme", VStr "https://rest.pubmlst.org/db/pubmlst_neisseria_seqdef/schemes/1");
    ("description", VStr "MLST");
    ("records", VInt 12) ].

Definition scheme_kwargs : dict value :=
  [ ("scheme", VStr "https://rest.pubmlst.org/db/pubmlst_neisseria_seqdef/schemes/1");
    ("description", VStr "MLST");
    ("query_endpoint", VStr "given") ].

Definition resource_kwargs : dict value :=
  [ ("name", VStr "pubmlst_neisseria");
    ("description", VStr "Neisseria spp.");
    ("databases",
     VList [ VDict [ ("name", VStr "pubmlst_neisseria_seqdef");
                     ("description", VStr "REST API access to PubMLST Neisseria spp. sequence/profile definitions database");
                     ("href", VStr "https://rest.pubmlst.org/db/pubmlst_neisseria_seqdef") ];
             VDict [ ("name", VStr "pubmlst_neisseria_isolates");
                     ("description", VStr "REST API access to PubMLST Neisseria spp. isolates database");
                     ("href", VStr "https://rest.pubmlst.org/db/pubmlst_neisseria_isolates") ] ]) ].

(** The JSON of the same resource with a key that is no field, in the
    resource and in one of its databases. *)
Definition resource_kwargs_extra : dict value :=
  [ ("name", VStr "pubmlst_neisseria");
    ("description", VStr "Neisseria spp.");
    ("curators", VInt 3);
    ("databases",
     VList [ VDict [ ("name", VStr "pubmlst_neisseria_seqdef");
                     ("description", VStr "REST API access to PubMLST Neisseria spp. sequence/profile definitions database");
                     ("href", VStr "https://rest.pubmlst.org/db/pubmlst_neisseria_seqdef");
                     ("records", VInt 12) ];
             VDict [ ("name", VStr "pubmlst_neisseria_isolates");
                     ("description", VStr "REST API access to PubMLST Neisseria spp. isolates database");
                     ("href", VStr "https://rest.pubmlst.org/db/pubmlst_neisseria_isolates") ] ]) ].

Definition taxon_kwargs : dict value :=
  [ ("taxon", VStr "Neisseria meningitidis");
    ("taxonomy", VStr "Bacteria > Proteobacteria > Neisseria");
    ("support", VInt 100);
    ("rank", VStr "SPECIES") ].

Definition scheme_cgmlst : value :=
  VObj SchemeModel_t
    [ ("scheme", VUrl "https://rest.pubmlst.org/db/pubmlst_neisseria_seqdef/schemes/47");
      ("description", VStr "N. meningitidis cgMLST v1.0");
      ("category", VStr "cgMLST");
      ("query_endpoint", VStr "https://rest.pubmlst.org/db/pubmlst_neisseria_seqdef/schemes/47/sequence") ].

Definition scheme_collection : value :=
  VObj SchemeCollectionModel_t
    [ ("records", VInt 2);
      ("schemes", VModelList SchemeList [Samples.scheme_mlst; scheme_cgmlst]) ].

(** The JSON that [scheme_collection] is constructed from. *)
Definition scheme_collection_kwargs : dict value :=
  [ ("records", VInt 2);
    ("schemes",
     VList
       [ VDict [ ("scheme", VStr "https://rest.pubmlst.org/db/pubmlst_neisseria_seqdef/schemes/1");
                 ("description", VStr "MLST") ];
         VDict [ ("scheme", VStr "https://rest.pubmlst.org/db/pubmlst_neisseria_seqdef/schemes/47");
                 ("description", VStr "N. meningitidis cgMLST v1.0") ] ]) ].

(** Two objects that hold the text of their URL in [scheme], as no
    constructed [SchemeModel] does. *)
Definition text_schemes : value :=
  VList
    [ VObj SchemeModel_t
        [ ("scheme", VStr "https://rest.pubmlst.org/db/pubmlst_neisseria_seqdef/schemes/1") ];
      VObj SchemeModel_t
        [ ("scheme", VStr "https://rest.pubmlst.org/db/pubmlst_neisseria_seqdef/schemes/47") ] ].

Definition resources : value :=
  VModelList ResourceList [Samples.resource_neisseria].

(** A transport that serves FASTA text for the first example locus only. *)
Definition serve_first (url : string) : result string :=
  if String.eqb url
       "https://rest.pubmlst.org/db/pubmlst_neisseria_seqdef/loci/abc123"
  then Ok ">abc123_1" else Raise ApiServiceError.

Definition serve_all (url : string) : result string := Ok url.

Definition client : RestClient.t :=
  RestClient.set_headers (RestClient.__init__ "" "" true)
    [("Authorization", "token")].

End MoreSamples.

(** The constructor turned the JSON list that [kwargs] gives for [attr] into
    a collection of class [list_model], held by [obj]: one element per item,
    every one an instance of the model of the collection. *)
Definition assembled (kwargs : dict value) (obj : value) (attr : string)
  (list_model : list_class) : Prop :=
  exists l rs,
    dict_get attr kwargs = Some (VList l)
    /\ getattr obj attr = Ok (VModelList list_model rs)
    /\ List.length rs = List.length l
    /\ homogeneous (ModelList.mk list_model rs).

(** One filtering step of [search]: the test it applies, if any. *)
Definition stage (test : option (value -> result bool)) (l : list value)
  : result (list value) :=
  match test with
  | Some f => filter_m f l
  | None => Ok l
  end.

(** The element passes the test [f]. *)
Definition passes (f : value -> result bool) (x : value) : bool :=
  match f x with
  | Ok true => true
  | _ => false
  end.

(** * Properties *)

Open Scope list_scope.

(** ** Strings *)

Lemma prefix_spec (p s : string) :
  prefix p s = true <-> exists b, s = (p ++ b)%string.
Proof.
  revert s; induction p as [|a p IH]; intros s; simpl.
  - split; [intros _; now exists s | now destruct s].
  - destruct s as [|c s]; simpl.
    + split; [discriminate | intros [b Hb]; discriminate].
    + destruct (ascii_dec a c) as [->|Hne].
      * rewrite IH. split; intros [b Hb]; exists b.
        -- now rewrite Hb.
        -- now injection Hb.
      * split; [discriminate|].
        intros [b Hb]. injection Hb as Hc _. now symmetry in Hc.
Qed.

Lemma contains_unfold (p s : string) :
  contains p s =
  if prefix p s then true
  else match s with
       | EmptyString => false
       | String _ s' => contains p s'
       end.
Proof. destruct s; reflexivity. Qed.

Lemma contains_spec (p s : string) :
  contains p s = true <-> Substring p s.
Proof.
  split.
  - induction s as [|c s IH]; rewrite contains_unfold;
      destruct (prefix p _) eqn:Hp.
    + intros _. apply prefix_spec in Hp as [b Hb]. now exists "", b.
    + discriminate.
    + intros _. apply prefix_spec in Hp as [b Hb]. now exists "", b.
    + intros H. destruct (IH H) as (a & b & Hab).
      exists (String c a), b. simpl. now rewrite Hab.
  - intros (a & b & Hab). revert s Hab.
    induction a as [|c a IH]; intros s Hab; rewrite contains_unfold.
    + assert (Hp : prefix p s = true) by (apply prefix_spec; now exists b).
      now rewrite Hp.
    + simpl in Hab. subst s. destruct (prefix p _); [reflexivity|].
      now apply IH.
Qed.

Lemma contains_false (p s : string) :
  contains p s = false <-> ~ Substring p s.
Proof.
  rewrite <- contains_spec. destruct (contains p s); split; intros H;
    try reflexivity; try discriminate; try (intros H'; discriminate).
  now elim H.
Qed.

(** ** The collection *)

Section CollectionFacts.

Variable regex : Type.
Variable re_compile : string -> option regex.
Variable re_search : regex -> string -> bool.

Local Abbreviation search := (ModelList.search regex re_compile re_search).

(** C9.  A search whose pattern is the empty string and that has no
    category returns a collection of the same class with every element of
    the collection, in the same order, whatever [attr] and the two flags
    are: the empty pattern counts as no pattern. *)
Theorem search_empty_pattern_keeps_all
  (C : ModelList.t) (attr : string) (exact_match use_regex : bool) :
  search C attr (Some "") None exact_match use_regex = Ok C.
Proof.
  destruct C as [c d]. reflexivity.
Qed.

Lemma filter_m_ok (f : value -> result bool) (g : value -> bool)
  (l : list value) :
  (forall x, In x l -> f x = Ok (g x)) ->
  filter_m f l = Ok (filter g l).
Proof.
  induction l as [|x l IH]; intros H; simpl; [reflexivity|].
  rewrite (H x (or_introl eq_refl)). simpl.
  rewrite IH by (intros y Hy; apply H; now right). reflexivity.
Qed.

Lemma attr_test_ok (attr : string) (test : string -> bool)
  (f : value -> result bool) (l : list value) :
  Forall (has_text_attr attr) l ->
  (forall s, f (VStr s) = Ok (test s)) ->
  filter_m (fun data => v <- getattr data attr ;; f v) l
  = Ok (filter (attr_sat test attr) l).
Proof.
  intros Hl Hf. apply filter_m_ok. intros x Hx.
  rewrite Forall_forall in Hl. destruct (Hl x Hx) as [s Hs].
  unfold attr_sat. rewrite Hs. simpl. apply Hf.
Qed.

Lemma category_test_ok (c : string) (l : list value) :
  Forall (has_attr "category") l ->
  filter_m (fun data => v <- getattr data "category" ;; Ok (eq_str c v)) l
  = Ok (filter (attr_sat (String.eqb c) "category") l).
Proof.
  intros Hl. apply filter_m_ok. intros x Hx.
  rewrite Forall_forall in Hl. destruct (Hl x Hx) as [v Hv].
  unfold attr_sat. rewrite Hv. simpl. now destruct v.
Qed.

Lemma truthy_nonempty (p : string) : p <> "" -> truthy (Some p) = Some p.
Proof. destruct p; [congruence | reflexivity]. Qed.

Lemma Forall_filter_keep {A} (P : A -> Prop) (g : A -> bool) (l : list A) :
  Forall P l -> Forall P (filter g l).
Proof.
  rewrite !Forall_forall. intros H x Hx. apply filter_In in Hx. now apply H.
Qed.

Lemma equal_test_ok (attr c : string) (l : list value) :
  Forall (has_attr attr) l ->
  filter_m (fun data => v <- getattr data attr ;; Ok (eq_str c v)) l
  = Ok (filter (attr_sat (String.eqb c) attr) l).
Proof.
  intros Hl. apply filter_m_ok. intros x Hx.
  rewrite Forall_forall in Hl. destruct (Hl x Hx) as [v Hv].
  unfold attr_sat. rewrite Hv. simpl. now destruct v.
Qed.

Lemma filter_m_keeps (P : value -> Prop) (f : value -> result bool)
  (l r : list value) :
  filter_m f l = Ok r -> Forall P l -> Forall P r.
Proof.
  revert r. induction l as [|x l IH]; simpl; intros r.
  - now intros [= <-].
  - destruct (f x) as [b|e]; simpl; [|discriminate].
    destruct (filter_m f l) as [r'|e]; simpl; [|discriminate].
    intros [= <-] H. inversion H; subst.
    destruct b; [constructor|]; auto.
Qed.

(** C1, as the code has it.  For a non-empty pattern [p] and an attribute
    that every element carries, the search returns a collection of the same
    class that holds, in their order, exactly the elements whose attribute
    equals [p] (exact match) and, where the attribute is a string on every
    element, exactly the elements whose attribute contains [p] (no exact
    match) or is matched somewhere by the compiled pattern (regex).  A
    category that is a non-empty string, on elements that carry a
    [category], restricts what the search returns without it further to the
    elements whose category equals it.  A category that is the empty string
    is ignored: the search is the search without a category. *)
Theorem search_filters
  (C : ModelList.t) (attr p : string)
  (Hp : p <> "")
  (Hattr : Forall (has_attr attr) (ModelList.data C)) :
  search C attr (Some p) None true false
  = Ok (ModelList.mk (ModelList.cls C)
          (filter (attr_sat (String.eqb p) attr) (ModelList.data C)))
  /\ (Forall (has_text_attr attr) (ModelList.data C) ->
      search C attr (Some p) None false false
      = Ok (ModelList.mk (ModelList.cls C)
              (filter (attr_sat (contains p) attr) (ModelList.data C))))
  /\ (Forall (has_text_attr attr) (ModelList.data C) ->
      forall r exact_match,
        re_compile p = Some r ->
        search C attr (Some p) None exact_match true
        = Ok (ModelList.mk (ModelList.cls C)
                (filter (attr_sat (re_search r) attr) (ModelList.data C))))
  /\ (forall c exact_match use_regex L,
         c <> "" ->
         Forall (has_attr "category") (ModelList.data C) ->
         search C attr (Some p) None exact_match use_regex = Ok L ->
         search C attr (Some p) (Some c) exact_match use_regex
         = Ok (ModelList.mk (ModelList.cls C)
                 (filter (attr_sat (String.eqb c) "category")
                         (ModelList.data L))))
  /\ (forall exact_match use_regex,
         search C attr (Some p) (Some "") exact_match use_regex
         = search C attr (Some p) None exact_match use_regex).
Proof.
  destruct C as [cl d]. simpl in Hattr.
  split; [|split; [|split; [|split]]].
  - unfold ModelList.search. rewrite (truthy_nonempty p Hp). simpl.
    now rewrite (equal_test_ok attr p d Hattr).
  - intros Htext.
    unfold ModelList.search. rewrite (truthy_nonempty p Hp). simpl.
    rewrite (attr_test_ok attr (contains p) (str_in p) d Htext)
      by reflexivity.
    reflexivity.
  - intros Htext r exact_match Hr.
    unfold ModelList.search. rewrite (truthy_nonempty p Hp). simpl.
    rewrite Hr.
    rewrite (attr_test_ok attr (re_search r)
               (ModelList.regex_search regex re_search r) d Htext)
      by reflexivity.
    reflexivity.
  - intros c exact_match use_regex L Hc Hcat.
    unfold ModelList.search.
    rewrite (truthy_nonempty p Hp), (truthy_nonempty c Hc).
    cbn [truthy ModelList.data ModelList.cls].
    destruct use_regex; [destruct (re_compile p) as [r|]
                        | destruct exact_match];
      cbn [bind]; try discriminate;
      (destruct (filter_m _ d) as [fd|e] eqn:Hfd; cbn [bind];
       [|discriminate]);
      unfold ModelList.__init__; intros [= <-]; cbn [ModelList.data];
      rewrite category_test_ok
        by (exact (filter_m_keeps _ _ _ _ Hfd Hcat));
      reflexivity.
  - intros exact_match use_regex. reflexivity.
Qed.

End CollectionFacts.

(** The flattening of any number of collections. *)
Lemma from_list_of_model_lists_concat (c : list_class) (Ls : list ModelList.t) :
  ModelList.from_list_of_model_lists c Ls
  = Ok (ModelList.mk c (concat (map ModelList.data Ls))).
Proof. reflexivity. Qed.

(** C6.  Flattening two collections gives one collection of the class the
    method is called on, whose elements are those of the first followed by
    those of the second, and whose length is the sum of the two lengths. *)
Theorem from_list_of_model_lists_two (c : list_class) (L1 L2 : ModelList.t) :
  exists L,
    ModelList.from_list_of_model_lists c [L1; L2] = Ok L
    /\ ModelList.cls L = c
    /\ ModelList.data L = ModelList.data L1 ++ ModelList.data L2
    /\ ModelList.__len__ L = ModelList.__len__ L1 + ModelList.__len__ L2.
Proof.
  exists (ModelList.mk c (ModelList.data L1 ++ ModelList.data L2)).
  rewrite from_list_of_model_lists_concat. simpl. rewrite app_nil_r.
  repeat split. unfold ModelList.__len__. simpl. apply length_app.
Qed.

(** The search theorem on the sample databases, with the literal stand-in for
    [re]; the exact search is also made on [href], which is no string on
    any of them. *)
Lemma search_filters_witness :
  let search :=
    ModelList.search string Samples.literal_compile Samples.literal_search in
  search Samples.databases "name" (Some "seqdef") None true false
  = Ok (ModelList.mk DatabaseList [])
  /\ search Samples.databases "name" (Some "seqdef") None false false
     = Ok (ModelList.mk DatabaseList [Samples.db_seqdef])
  /\ search Samples.databases "name" (Some "seqdef") None true true
     = Ok (ModelList.mk DatabaseList [Samples.db_seqdef])
  /\ search Samples.databases "name" (Some "seqdef") (Some "isolates")
            false false
     = Ok (ModelList.mk DatabaseList [])
  /\ search Samples.databases "name" (Some "seqdef") (Some "") false false
     = Ok (ModelList.mk DatabaseList [Samples.db_seqdef])
  /\ search Samples.databases "href"
            (Some "https://rest.pubmlst.org/db/pubmlst_neisseria_seqdef")
            None true false
     = Ok (ModelList.mk DatabaseList []).
Proof.
  assert (Hp : "seqdef" <> "") by discriminate.
  assert (Hattr : Forall (has_attr "name")
                         (ModelList.data Samples.databases)).
  { repeat apply Forall_cons; [eexists; reflexivity .. | apply Forall_nil]. }
  assert (Htext : Forall (has_text_attr "name")
                         (ModelList.data Samples.databases)).
  { repeat apply Forall_cons; [eexists; reflexivity .. | apply Forall_nil]. }
  assert (Hhref : Forall (has_attr "href")
                         (ModelList.data Samples.databases)).
  { repeat apply Forall_cons; [eexists; reflexivity .. | apply Forall_nil]. }
  destruct (search_filters string Samples.literal_compile
              Samples.literal_search Samples.databases "name" "seqdef"
              Hp Hattr) as (H1 & H2 & H3 & H4 & H5).
  split; [exact H1 | split; [exact (H2 Htext) | split; [|split; [|split]]]].
  - exact (H3 Htext "seqdef" true eq_refl).
  - refine (H4 "isolates" false false _ _ _ (H2 Htext)); [discriminate|].
    repeat apply Forall_cons; [eexists; reflexivity .. | apply Forall_nil].
  - exact (eq_trans (H5 false false) (H2 Htext)).
  - refine (proj1 (search_filters string Samples.literal_compile
                     Samples.literal_search Samples.databases "href"
                     "https://rest.pubmlst.org/db/pubmlst_neisseria_seqdef"
                     _ Hhref)).
    discriminate.
Defined.

(** C1, as stated, fails where the category is the empty string: the
    category filter is skipped, and the database found by its name is
    returned although its category is not the one that was supplied. *)
Lemma search_empty_category_counterexample :
  let search :=
    ModelList.search string Samples.literal_compile Samples.literal_search in
  search (ModelList.mk DatabaseList [Samples.db_seqdef]) "name"
         (Some "pubmlst_neisseria_seqdef") (Some "") true false
  = Ok (ModelList.mk DatabaseList [Samples.db_seqdef])
  /\ getattr Samples.db_seqdef "category" = Ok (VStr "seqdef")
  /\ ~ (forall L,
          search (ModelList.mk DatabaseList [Samples.db_seqdef]) "name"
                 (Some "pubmlst_neisseria_seqdef") (Some "") true false
          = Ok L ->
          forall e, In e (ModelList.data L) ->
                    getattr e "category" = Ok (VStr "")).
Proof.
  repeat split.
  intros H.
  specialize (H _ eq_refl Samples.db_seqdef (or_introl eq_refl)).
  discriminate H.
Qed.

(** A category on a collection of resources, whose elements have no
    [category], raises [AttributeError]. *)
Lemma search_category_on_resources_raises :
  ModelList.search string Samples.literal_compile Samples.literal_search
    (ModelList.mk ResourceList [Samples.resource_neisseria]) "name"
    (Some "pubmlst_neisseria") (Some "seqdef") true false
  = Raise AttributeError.
Proof. reflexivity. Qed.

(** A substring search on an attribute whose value is [None] raises
    [TypeError]. *)
Lemma search_substring_on_none_raises :
  ModelList.search string Samples.literal_compile Samples.literal_search
    (ModelList.mk ResourceList [Samples.resource_neisseria])
    "long_description" (Some "Neisseria") None false false
  = Raise TypeError.
Proof. reflexivity. Qed.

(** The constructor accepts every list. *)
Lemma init_accepts_every_list (c : list_class) (data : list value) :
  ModelList.__init__ c data = Ok (ModelList.mk c data).
Proof. reflexivity. Qed.

(** C2, the code at a failing input.  A [DatabaseList] constructed from a
    list that holds a [SchemeModel] is accepted as it is, although the
    element is not an instance of [DatabaseModel] and the validation that
    [__post_init__], [extend] and [append] run rejects it. *)
Theorem init_keeps_wrongly_typed_element :
  ModelList.__init__ DatabaseList [Samples.scheme_mlst]
  = Ok (ModelList.mk DatabaseList [Samples.scheme_mlst])
  /\ ModelList.isinstance Samples.scheme_mlst
       (ModelList._get_model DatabaseList) = false
  /\ ModelList.__post_init__ (ModelList.mk DatabaseList [Samples.scheme_mlst])
     = Raise TypeError
  /\ ModelList.extend (ModelList.mk DatabaseList []) [Samples.scheme_mlst]
     = Raise TypeError
  /\ ModelList.append (ModelList.mk DatabaseList []) Samples.scheme_mlst
     = Raise ValueError.
Proof. repeat split. Qed.

(** ** The entity models *)

Import Models.

Lemma validate_str_inv (any_url : string -> option string)
  (lax : pytype -> value -> option value) (v v' : value) :
  validate any_url lax TStr v = Some v' -> exists s, v' = VStr s.
Proof. destruct v; simpl; intros [= <-]; eauto. Qed.

Lemma validate_url_inv (any_url : string -> option string)
  (lax : pytype -> value -> option value) (v v' : value) :
  validate any_url lax TUrl v = Some v' -> exists s, v' = VUrl s.
Proof.
  cbn [validate]. destruct (url_text any_url v); simpl; intros [= <-]; eauto.
Qed.

Section ModelFacts.

Variable any_url : string -> option string.
Variable lax : pytype -> value -> option value.

(** A constructed [DatabaseModel] has a [name], and its [category] is
    derived from it. *)
Lemma DatabaseModel_init_category (kwargs : dict value) (obj : value) :
  DatabaseModel_init any_url lax kwargs = Ok obj ->
  exists name,
    getattr obj "name" = Ok (VStr name)
    /\ getattr obj "category" = Ok (VStr (_determine_category name)).
Proof.
  unfold DatabaseModel_init, dataclass_init. intros H.
  destruct (has_dup _); [discriminate|].
  cbn [map_m DatabaseModel_fields] in H. unfold bind_field, required, optional in H.
  cbn [f_name f_type f_default bind] in H.
  destruct (dict_get "description" kwargs) as [d|]; [|discriminate].
  destruct (validate any_url lax TStr d) as [d'|] eqn:Hd; [|discriminate].
  destruct (validate_str_inv _ _ _ _ Hd) as [ds ->].
  cbn [bind] in H.
  destruct (dict_get "href" kwargs) as [h|]; [|discriminate].
  destruct (validate any_url lax TUrl h) as [h'|]; [|discriminate].
  cbn [bind] in H.
  destruct (dict_get "name" kwargs) as [n|]; [|discriminate].
  destruct (validate any_url lax TStr n) as [n'|] eqn:Hn; [|discriminate].
  destruct (validate_str_inv _ _ _ _ Hn) as [ns ->].
  cbn [bind] in H.
  destruct (dict_get "category" kwargs) as [c|];
    [destruct (validate any_url lax _ c) as [c'|]; [|discriminate]|];
    (destruct (dict_get "subject" kwargs) as [s|];
     [destruct (validate any_url lax _ s) as [s'|]; [|discriminate]|]);
    cbn in H; injection H as <-; exists ns; split; reflexivity.
Qed.

(** A constructed [SchemeModel] has a [description], and its [category] is
    derived from it. *)
Lemma SchemeModel_init_category (kwargs : dict value) (obj : value) :
  SchemeModel_init any_url lax kwargs = Ok obj ->
  exists description,
    getattr obj "description" = Ok (VStr description)
    /\ getattr obj "category" = Ok (VStr (determine_category description)).
Proof.
  unfold SchemeModel_init, dataclass_init. intros H.
  destruct (has_dup _); [discriminate|].
  cbn [map_m SchemeModel_fields] in H. unfold bind_field, required, optional in H.
  cbn [f_name f_type f_default bind] in H.
  destruct (dict_get "scheme" kwargs) as [h|]; [|discriminate].
  destruct (validate any_url lax TUrl h) as [h'|] eqn:Hh; [|discriminate].
  destruct (validate_url_inv _ _ _ _ Hh) as [hs ->].
  cbn [bind] in H.
  destruct (dict_get "description" kwargs) as [d|]; [|discriminate].
  destruct (validate any_url lax TStr d) as [d'|] eqn:Hd; [|discriminate].
  destruct (validate_str_inv _ _ _ _ Hd) as [ds ->].
  cbn [bind] in H.
  destruct (dict_get "category" kwargs) as [c|];
    [destruct (validate any_url lax _ c) as [c'|]; [|discriminate]|];
    (destruct (dict_get "query_endpoint" kwargs) as [s|];
     [destruct (validate any_url lax _ s) as [s'|]; [|discriminate]|]);
    cbn in H; injection H as <-; exists ds; split; reflexivity.
Qed.

End ModelFacts.

(** C5.  The category of a database is [seqdef] when its name contains
    "seqdef", [isolates] when it contains "isolates" and not "seqdef", and
    [others] otherwise; the category of a scheme is [cgMLST] when its
    description contains "cgMLST", [MLST] when it contains "MLST" and not
    "cgMLST", and [others] otherwise.  A constructed [DatabaseModel],
    [SchemeModel] or [FullSchemeModel] carries the category derived in this
    way from its name, respectively its description. *)
Theorem category_derivation (name description : string) :
  ((Substring "seqdef" name ->
    _determine_category name = database_value SEQDEF)
   /\ (Substring "isolates" name -> ~ Substring "seqdef" name ->
       _determine_category name = database_value ISOLATES)
   /\ (~ Substring "seqdef" name -> ~ Substring "isolates" name ->
       _determine_category name = database_value DC_OTHERS))
  /\ ((Substring "cgMLST" description ->
       determine_category description = scheme_value CGMLST)
      /\ (Substring "MLST" description -> ~ Substring "cgMLST" description ->
          determine_category description = scheme_value MLST)
      /\ (~ Substring "cgMLST" description -> ~ Substring "MLST" description ->
          determine_category description = scheme_value SC_OTHERS))
  /\ (forall any_url lax kwargs obj,
         DatabaseModel_init any_url lax kwargs = Ok obj ->
         getattr obj "name" = Ok (VStr name) ->
         getattr obj "category" = Ok (VStr (_determine_category name)))
  /\ (forall any_url lax kwargs obj,
         SchemeModel_init any_url lax kwargs = Ok obj ->
         getattr obj "description" = Ok (VStr description) ->
         getattr obj "category" = Ok (VStr (determine_category description)))
  /\ (forall m,
         FullSchemeApi.description m = description ->
         FullSchemeApi.category (FullSchemeApi.FullSchemeModel_post_init m)
         = Some (determine_category description)).
Proof.
  unfold _determine_category, determine_category.
  repeat match goal with |- _ /\ _ => split end.
  - intros H. apply contains_spec in H. simpl database_value. now rewrite H.
  - intros H H'. apply contains_spec in H. apply contains_false in H'.
    simpl database_value. now rewrite H', H.
  - intros H H'. apply contains_false in H, H'.
    simpl database_value. now rewrite H, H'.
  - intros H. apply contains_spec in H. simpl scheme_value. now rewrite H.
  - intros H H'. apply contains_spec in H. apply contains_false in H'.
    simpl scheme_value. now rewrite H', H.
  - intros H H'. apply contains_false in H, H'.
    simpl scheme_value. now rewrite H, H'.
  - intros any_url lax kwargs obj Hobj Hname.
    destruct (DatabaseModel_init_category _ _ _ _ Hobj) as (n & Hn & Hc).
    rewrite Hname in Hn. injection Hn as <-. exact Hc.
  - intros any_url lax kwargs obj Hobj Hdesc.
    destruct (SchemeModel_init_category _ _ _ _ Hobj) as (d & Hd & Hc).
    rewrite Hdesc in Hd. injection Hd as <-. exact Hc.
  - intros m <-. reflexivity.
Qed.

(** The derivation on the names and descriptions of the samples, and on a
    database and a scheme built from their JSON. *)
Lemma category_derivation_witness :
  _determine_category "pubmlst_neisseria_seqdef" = "seqdef"
  /\ _determine_category "pubmlst_neisseria_isolates" = "isolates"
  /\ determine_category "Neisseria cgMLST v2" = "cgMLST"
  /\ determine_category "MLST" = "MLST"
  /\ getattr Samples.db_seqdef "category" = Ok (VStr "seqdef").
Proof.
  split; [|split; [|split; [|split]]].
  - apply (proj1 (proj1 (category_derivation "pubmlst_neisseria_seqdef" ""))).
    apply contains_spec. reflexivity.
  - apply (proj1 (proj2 (proj1
             (category_derivation "pubmlst_neisseria_isolates" "")))).
    + apply contains_spec. reflexivity.
    + apply contains_false. reflexivity.
  - apply (proj1 (proj1 (proj2
             (category_derivation "" "Neisseria cgMLST v2")))).
    apply contains_spec. reflexivity.
  - apply (proj1 (proj2 (proj1 (proj2 (category_derivation "" "MLST"))))).
    + apply contains_spec. reflexivity.
    + apply contains_false. reflexivity.
  - apply (proj1 (proj2 (proj2
             (category_derivation "pubmlst_neisseria_seqdef" "")))
             Samples.http_url Samples.decimal_lax
             [ ("name", VStr "pubmlst_neisseria_seqdef");
               ("description", VStr "REST API access to PubMLST Neisseria spp. sequence/profile definitions database");
               ("href", VStr "https://rest.pubmlst.org/db/pubmlst_neisseria_seqdef") ]
             Samples.db_seqdef); reflexivity.
Defined.

(** ** Query results *)

Lemma dict_get_set_same {V} (k : string) (v : V) (d : dict V) :
  dict_get k (dict_set k v d) = Some v.
Proof.
  induction d as [|[k' v'] d IH]; simpl.
  - now rewrite String.eqb_refl.
  - destruct (String.eqb k k') eqn:E; simpl.
    + now rewrite String.eqb_refl.
    + now rewrite E.
Qed.

Lemma dict_get_set_other {V} (k k' : string) (v : V) (d : dict V) :
  k <> k' -> dict_get k (dict_set k' v d) = dict_get k d.
Proof.
  intros Hne. induction d as [|[k0 v0] d IH]; simpl.
  - apply String.eqb_neq in Hne. now rewrite Hne.
  - destruct (String.eqb k' k0) eqn:E; simpl.
    + apply String.eqb_eq in E. subst k0.
      apply String.eqb_neq in Hne. now rewrite Hne.
    + now rewrite IH.
Qed.

Section QueryFacts.

Variable any_url : string -> option string.
Variable lax : pytype -> value -> option value.

Lemma bind_field_fst (kwargs : dict value) (f : field) (p : string * value) :
  bind_field any_url lax kwargs f = Ok p -> fst p = f_name f.
Proof.
  unfold bind_field.
  destruct (dict_get _ kwargs) as [v|];
    [destruct (validate _ _ _ v) | destruct (f_default f)];
    intros [= <-]; reflexivity.
Qed.

(** The attributes a constructor leaves: each name has the value bound to the
    first field of that name. *)
Lemma map_m_bind_field_get (kwargs : dict value) (fields : list field)
  (self : dict value) (n : string) :
  map_m (bind_field any_url lax kwargs) fields = Ok self ->
  dict_get n self =
  match find (fun f => String.eqb n (f_name f)) fields with
  | Some f =>
      match bind_field any_url lax kwargs f with
      | Ok p => Some (snd p)
      | Raise _ => None
      end
  | None => None
  end.
Proof.
  revert self. induction fields as [|f fields IH]; intros self; simpl.
  - now intros [= <-].
  - destruct (bind_field any_url lax kwargs f) as [p|e] eqn:Hf; simpl;
      [|discriminate].
    destruct (map_m _ fields) as [r|e]; simpl; [|discriminate].
    intros [= <-]. pose proof (bind_field_fst _ _ _ Hf) as Hk.
    destruct p as [k v]. simpl in Hk. subst k. simpl.
    destruct (String.eqb n (f_name f)).
    + now rewrite Hf.
    + now apply IH.
Qed.

(** A result built for the locus [k] is tagged with [k]. *)
Lemma AlleleExactResult_init_tag (k : string) (kw : dict value) (o : value) :
  AlleleExactResult_init any_url lax (("allele_name", VStr k) :: kw) = Ok o ->
  getattr o "allele_name" = Ok (VStr k).
Proof.
  unfold AlleleExactResult_init, dataclass_init.
  destruct (has_dup _); [discriminate|].
  destruct (map_m _ _) as [self|e] eqn:Hself; [|discriminate].
  intros [= <-]. simpl.
  rewrite (map_m_bind_field_get _ _ _ "allele_name" Hself). reflexivity.
Qed.

(** The record built from the match object [m] of the locus [k]. *)
Local Abbreviation built k kw o :=
  (AlleleExactResult_init any_url lax (("allele_name", VStr k) :: kw) = Ok o).

Lemma map_m_matches (k : string) (ms : list (dict value)) :
  (forall kw, In kw ms -> exists o, built k kw o) ->
  exists os,
    map_m (call_with (fun value =>
             AlleleExactResult_init any_url lax (("allele_name", VStr k) :: value)))
          (map VDict ms) = Ok os
    /\ Forall2 (fun kw o => built k kw o) ms os.
Proof.
  induction ms as [|kw ms IH]; intros H; simpl.
  - exists []. split; [reflexivity | constructor].
  - destruct (H kw (or_introl eq_refl)) as [o Ho].
    destruct IH as (os & Hos & HF); [intros; apply H; now right|].
    exists (o :: os). rewrite Ho. simpl. rewrite Hos. simpl.
    split; [reflexivity | now constructor].
Qed.

Lemma for_items_matches (mapping : list (string * list (dict value)))
  (acc : list value) :
  (forall k kw, In (k, kw) (tagged_matches mapping) -> exists o, built k kw o) ->
  exists results,
    for_items any_url lax acc
      (map (fun item => (fst item, VList (map VDict (snd item)))) mapping)
    = Ok (acc ++ results)
    /\ Forall2 (fun m o => built (fst m) (snd m) o)
               (tagged_matches mapping) results.
Proof.
  revert acc. induction mapping as [|[k ms] mapping IH]; intros acc H.
  - exists []. simpl. rewrite app_nil_r. split; [reflexivity | constructor].
  - simpl in H.
    destruct (map_m_matches k ms) as (os & Hos & HF).
    { intros kw Hkw. apply H. apply in_or_app. left.
      now apply in_map. }
    destruct (IH (acc ++ os)) as (rs & Hrs & HFs).
    { intros k' kw Hin. apply H. apply in_or_app. now right. }
    exists (os ++ rs). simpl. rewrite Hos. simpl. rewrite Hrs.
    rewrite app_assoc. split; [reflexivity|].
    apply Forall2_app; [|exact HFs].
    clear -HF. induction HF; simpl; now constructor.
Qed.

(** C4, as the code has it.  For a mapping from locus names to lists of
    match objects, each of which the [AlleleExactResult] constructor accepts
    together with an [allele_name] that is its locus name, the constructed
    [SequenceQueryResult] holds in [exact_matches] a flat list with one
    [AlleleExactResult] per match object, in the order of the mapping and of
    its lists, each built from its match object and carrying as its
    [allele_name] the locus name the object was filed under. *)
Theorem exact_matches_flattened
  (mapping : list (string * list (dict value)))
  (partial_matches fields : option (dict value))
  (Hmatch : forall k kw, In (k, kw) (tagged_matches mapping) ->
                         exists o, built k kw o) :
  exists results,
    SequenceQueryResult_init any_url lax
      (("exact_matches", matches_value mapping)
         :: keyword "partial_matches" partial_matches
         ++ keyword "fields" fields)
    = Ok (VObj SequenceQueryResult_t
            [ ("exact_matches", VList results);
              ("partial_matches", attribute partial_matches);
              ("fields", attribute fields) ])
    /\ Forall2 (fun m o => built (fst m) (snd m) o
                           /\ getattr o "allele_name" = Ok (VStr (fst m)))
               (tagged_matches mapping) results.
Proof.
  destruct (for_items_matches mapping [] Hmatch) as (results & Hres & HF).
  exists results. split.
  - unfold SequenceQueryResult_init, SequenceQueryResult_post_init,
      matches_value.
    simpl app in Hres. revert Hres.
    generalize
      (map (fun item : string * list (dict value) =>
              (fst item, VList (map VDict (snd item)))) mapping).
    intros its Hres.
    destruct partial_matches, fields; cbn -[for_items];
      rewrite Hres; reflexivity.
  - clear -HF. induction HF as [|m o ms os Hm HF IH]; constructor; [|exact IH].
    split; [exact Hm|]. now apply AlleleExactResult_init_tag in Hm.
Qed.

(** C10.  When the keyword arguments leave [exact_matches] out, or give
    [None] for it, the constructors of [SequenceQueryResult],
    [rMLSTResultModel] and [SchemeQueryResult] raise: no result is built. *)
Theorem exact_matches_required (kwargs : dict value)
  (Hnone : dict_get "exact_matches" kwargs = None
           \/ dict_get "exact_matches" kwargs = Some VNone) :
  (exists e, SequenceQueryResult_init any_url lax kwargs = Raise e)
  /\ (exists e, rMLSTResultModel_init any_url lax kwargs = Raise e)
  /\ (exists e, SchemeQueryResult_init any_url lax kwargs = Raise e).
Proof.
  assert (Hself : forall fields self,
    find (fun f => String.eqb "exact_matches" (f_name f)) fields
    = Some (mk_field "exact_matches" TDict (Some VNone)) ->
    map_m (bind_field any_url lax kwargs) fields = Ok self ->
    exists e, SequenceQueryResult_post_init any_url lax self = Raise e).
  { intros fields self Hfind Hmap.
    unfold SequenceQueryResult_post_init, self_attr.
    rewrite (map_m_bind_field_get _ _ _ "exact_matches" Hmap), Hfind.
    unfold bind_field. cbn [f_name f_type f_default].
    destruct Hnone as [-> | ->]; simpl; eauto. }
  unfold SequenceQueryResult_init, rMLSTResultModel_init,
    SchemeQueryResult_init, rMLSTResultModel_post_init, dataclass_init.
  destruct (has_dup _); [split; [|split]; eexists; reflexivity|].
  split; [|split].
  - destruct (map_m _ _) as [self|e] eqn:Hmap; [|eexists; reflexivity].
    destruct (fun H => Hself _ _ H Hmap) as [e He]; [reflexivity|].
    simpl. rewrite He.
    destruct e; eexists; reflexivity.
  - destruct (map_m _ _) as [self|e] eqn:Hmap; [|eexists; reflexivity].
    destruct (fun H => Hself _ _ H Hmap) as [e He]; [reflexivity|].
    simpl. rewrite He.
    destruct e; eexists; reflexivity.
  - destruct (map_m _ _) as [self|e] eqn:Hmap; [|eexists; reflexivity].
    destruct (fun H => Hself _ _ H Hmap) as [e He]; [reflexivity|].
    simpl. rewrite He.
    destruct e; eexists; reflexivity.
Qed.

(** ** The resource index *)





End QueryFacts.

(** The flattening on the mapping of the specification's example: two
    results, tagged "abc" and "xyz". *)
Lemma exact_matches_flattened_witness :
  exists results,
    SequenceQueryResult_init Samples.http_url Samples.decimal_lax
      [("exact_matches", matches_value Samples.two_matches)]
    = Ok (VObj SequenceQueryResult_t
            [ ("exact_matches", VList results);
              ("partial_matches", VNone);
              ("fields", VNone) ])
    /\ map (fun o => getattr o "allele_name") results
       = [Ok (VStr "abc"); Ok (VStr "xyz")].
Proof.
  assert (Hmatch : forall k kw,
    In (k, kw) (tagged_matches Samples.two_matches) ->
    exists o, AlleleExactResult_init Samples.http_url Samples.decimal_lax
                (("allele_name", VStr k) :: kw) = Ok o).
  { intros k kw [H|[H|[]]]; injection H as <- <-; eexists; reflexivity. }
  destruct (exact_matches_flattened Samples.http_url Samples.decimal_lax Samples.two_matches
              None None Hmatch) as (results & Hinit & HF).
  exists results. split; [exact Hinit|].
  simpl in HF.
  inversion HF as [|m1 o1 ms1 os1 [_ H1] HF1]; subst.
  inversion HF1 as [|m2 o2 ms2 os2 [_ H2] HF2]; subst.
  inversion HF2; subst. simpl in *. now rewrite H1, H2.
Defined.

(** C4, as stated, fails on a mapping with a match object that has an
    [allele_name] of its own: the constructor of [AlleleExactResult] is
    given the keyword twice, and no result is built. *)
Lemma exact_matches_own_allele_name_counterexample :
  SequenceQueryResult_init Samples.http_url Samples.decimal_lax
    [("exact_matches",
      matches_value
        [("abc", [[("allele_id", VInt 1); ("allele_name", VStr "abc_1")]])])]
  = Raise TypeError
  /\ ~ (exists results,
          SequenceQueryResult_init Samples.http_url Samples.decimal_lax
            [("exact_matches",
              matches_value
                [("abc", [[("allele_id", VInt 1);
                           ("allele_name", VStr "abc_1")]])])]
          = Ok (VObj SequenceQueryResult_t
                  [ ("exact_matches", VList results);
                    ("partial_matches", VNone);
                    ("fields", VNone) ])).
Proof.
  split; [reflexivity|]. intros [results H]. discriminate H.
Qed.

(** A match object without an [allele_id] is not accepted either. *)
Lemma exact_matches_without_allele_id_raises :
  SequenceQueryResult_init Samples.http_url Samples.decimal_lax
    [("exact_matches", matches_value [("abc", [[("href", VStr "x")]])])]
  = Raise ValidationError.
Proof. reflexivity. Qed.

(** A match object is accepted with a key that is no field, which is
    ignored, and with an [allele_id] that the lax conversion reads as an
    integer. *)
Lemma exact_matches_lenient_example :
  SequenceQueryResult_init Samples.http_url Samples.decimal_lax
    [("exact_matches",
      matches_value
        [("abc", [[("allele_id", VStr "5"); ("label", VStr "abc_5")]])])]
  = Ok (VObj SequenceQueryResult_t
          [ ("exact_matches",
             VList
               [ VObj AlleleExactResult_t
                   [ ("allele_id", VInt 5);
                     ("href", VNone);
                     ("allele_name", VStr "abc");
                     ("start", VNone);
                     ("end", VNone);
                     ("orientation", VNone);
                     ("length", VNone);
                     ("contig", VNone);
                     ("linked_data", VNone) ] ]);
            ("partial_matches", VNone);
            ("fields", VNone) ]).
Proof. reflexivity. Qed.

(** The constructors on no keyword argument at all. *)
Lemma exact_matches_required_witness :
  (exists e, SequenceQueryResult_init Samples.http_url Samples.decimal_lax [] = Raise e)
  /\ (exists e, rMLSTResultModel_init Samples.http_url Samples.decimal_lax [] = Raise e)
  /\ (exists e, SchemeQueryResult_init Samples.http_url Samples.decimal_lax [] = Raise e).
Proof.
  exact (exact_matches_required Samples.http_url Samples.decimal_lax [] (or_introl eq_refl)).
Defined.

(** The omitted field raises [AttributeError] from [__post_init__]; an
    explicit [None] is rejected before it. *)
Lemma exact_matches_omitted_or_none :
  SequenceQueryResult_init Samples.http_url Samples.decimal_lax [] = Raise AttributeError
  /\ SequenceQueryResult_init Samples.http_url Samples.decimal_lax [("exact_matches", VNone)]
     = Raise ValidationError.
Proof. split; reflexivity. Qed.


(** ** The scheme navigator *)

Lemma prefix_slash (c : ascii) (s : string) :
  prefix "/" (String c s) = if ascii_dec "/" c then true else false.
Proof.
  cbn [prefix]. destruct (ascii_dec "/" c); [now destruct s | reflexivity].
Qed.

Lemma split_fuel_slash (s : string) (fuel : nat) :
  String.length s <= fuel ->
  exists t,
    last (split_fuel fuel "/" s) "" = t
    /\ contains "/" t = false
    /\ ((split_fuel fuel "/" s = [t] /\ s = t)
        \/ (exists pre, s = (pre ++ "/" ++ t)%string
                        /\ 2 <= List.length (split_fuel fuel "/" s))).
Proof.
  revert fuel. induction s as [|c s IH]; intros fuel Hlen.
  - exists "". destruct fuel; simpl; repeat split; now left.
  - destruct fuel as [|fuel]; [simpl in Hlen; lia|].
    simpl in Hlen. assert (Hs : String.length s <= fuel) by lia.
    destruct (IH fuel Hs) as (t & Hlast & Hno & Hshape). clear IH.
    cbn [split_fuel]. rewrite prefix_slash.
    destruct (ascii_dec "/" c) as [<-|Hne].
    + cbn [String.length drop].
      exists t. split; [|split; [exact Hno|right]].
      * destruct Hshape as [[Hl _] | (pre & _ & Hl)].
        -- rewrite Hl in *. exact Hlast.
        -- destruct (split_fuel fuel "/" s) as [|w ws]; [cbn [List.length] in Hl; lia|].
           exact Hlast.
      * destruct Hshape as [[Hl ->] | (pre & -> & Hl)].
        -- exists "". rewrite Hl. split; [reflexivity | cbn [List.length]; lia].
        -- exists (String "/" pre). split; [reflexivity | cbn [List.length]; lia].
    + destruct Hshape as [[Hl ->] | (pre & -> & Hl)].
      * rewrite Hl. exists (String c t). split; [reflexivity|].
        split; [|now left].
        rewrite contains_unfold, prefix_slash.
        destruct (ascii_dec "/" c); [contradiction | exact Hno].
      * destruct (split_fuel fuel "/" _) as [|w [|w' ws]];
          try (cbn [List.length] in Hl; lia).
        exists t. split; [exact Hlast|]. split; [exact Hno|].
        right. exists (String c pre). split; [reflexivity | cbn [List.length]; lia].
Qed.

(** [last_segment] gives what follows the final "/". *)
Lemma last_segment_spec (u : string) : after_final_slash u (last_segment u).
Proof.
  unfold last_segment, split.
  destruct (split_fuel_slash u (String.length u) (le_n _))
    as (t & -> & Hno & Hshape).
  split; [now apply contains_false|].
  destruct Hshape as [[_ ->] | (pre & -> & _)]; [now left | right; eauto].
Qed.

Lemma find_over_app {A} (f : A -> bool) (l1 l2 : list A) :
  find f (l1 ++ l2) =
  match find f l1 with
  | Some x => Some x
  | None => find f l2
  end.
Proof.
  induction l1 as [|x l1 IH]; simpl; [reflexivity|].
  now destruct (f x).
Qed.

Lemma dict_keys_get {V} (k : string) (d : dict V) :
  In k (dict_keys d) <-> dict_get k d <> None.
Proof.
  induction d as [|[k' v] d IH]; simpl.
  - split; [intros [] | congruence].
  - destruct (String.eqb k k') eqn:E.
    + apply String.eqb_eq in E. subst. split; [discriminate | now left].
    + apply String.eqb_neq in E. rewrite <- IH. split.
      * now intros [H|H]; [congruence|].
      * now right.
Qed.

Lemma dict_keys_set {V} (k k' : string) (v : V) (d : dict V) :
  In k' (dict_keys (dict_set k v d)) <-> k' = k \/ In k' (dict_keys d).
Proof.
  rewrite !dict_keys_get. destruct (String.eqb_spec k' k) as [->|Hne].
  - rewrite dict_get_set_same. split; [now left | discriminate].
  - rewrite dict_get_set_other by exact Hne. split; [now right|].
    now intros [H|H].
Qed.

Lemma dict_set_NoDup {V} (k : string) (v : V) (d : dict V) :
  NoDup (dict_keys d) -> NoDup (dict_keys (dict_set k v d)).
Proof.
  induction d as [|[k' v'] d IH]; simpl; intros H.
  - constructor; [intros [] | constructor].
  - inversion H as [|? ? Hnotin Hd]; subst.
    destruct (String.eqb_spec k k') as [->|Hne]; simpl.
    + now constructor.
    + constructor; [|now apply IH].
      intros Hin. apply dict_keys_set in Hin as [Heq|Hin]; [|contradiction].
      now subst.
Qed.

Section NavigatorFacts.

Import FullSchemeApi.

(** The dict comprehension of [_index_loci], from any starting dict. *)
Local Abbreviation index_from l d :=
  (fold_left (fun locis loci => dict_set (last_segment loci) loci locis) l d).

Lemma index_from_get (l : list string) (d : dict string) (k : string) :
  dict_get k (index_from l d) =
  match find (fun u => String.eqb k (last_segment u)) (rev l) with
  | Some u => Some u
  | None => dict_get k d
  end.
Proof.
  revert d. induction l as [|u l IH]; intros d; simpl; [reflexivity|].
  rewrite IH, find_over_app.
  destruct (find _ (rev l)); [reflexivity|]. simpl.
  destruct (String.eqb_spec k (last_segment u)) as [->|Hne].
  - apply dict_get_set_same.
  - now apply dict_get_set_other.
Qed.

Lemma index_from_NoDup (l : list string) (d : dict string) :
  NoDup (dict_keys d) -> NoDup (dict_keys (index_from l d)).
Proof.
  revert d. induction l as [|u l IH]; intros d H; simpl; [exact H|].
  apply IH. now apply dict_set_NoDup.
Qed.

Lemma NoDup_map_injective {A B} (f : A -> B) (l : list A) (x y : A) :
  NoDup (map f l) -> In x l -> In y l -> f x = f y -> x = y.
Proof.
  induction l as [|a l IH]; simpl; intros Hnd Hx Hy Hf; [contradiction|].
  inversion Hnd as [|? ? Hnotin Hnd']; subst.
  destruct Hx as [->|Hx], Hy as [->|Hy]; try reflexivity.
  - elim Hnotin. rewrite Hf. now apply in_map.
  - elim Hnotin. rewrite <- Hf. now apply in_map.
  - now apply IH.
Qed.

(** C7, as the code has it.  The index maps a name to the last URL of
    [loci] whose part after the final "/" is that name, and to nothing where
    there is none; so the URL of each name ends in that name, each URL is
    found under its own final segment where no two URLs share theirs, and
    [list_loci] returns exactly the final segments of the URLs, each once. *)
Theorem locus_index (model : FullSchemeModel) :
  let index := _indexed_locis (__init__ model) in
  (forall k,
      dict_get k index
      = find (fun u => String.eqb k (last_segment u)) (rev (loci model)))
  /\ (forall u, after_final_slash u (last_segment u))
  /\ (forall k u, dict_get k index = Some u ->
                  In u (loci model) /\ last_segment u = k)
  /\ (NoDup (map last_segment (loci model)) ->
      forall u, In u (loci model) ->
                dict_get (last_segment u) index = Some u)
  /\ (forall k, In k (list_loci (__init__ model))
                <-> exists u, In u (loci model) /\ last_segment u = k)
  /\ NoDup (list_loci (__init__ model)).
Proof.
  cbv zeta. unfold list_loci, __init__, _index_loci. cbn [_indexed_locis].
  assert (Hget : forall k,
    dict_get k (index_from (loci model) [])
    = find (fun u => String.eqb k (last_segment u)) (rev (loci model))).
  { intros k. rewrite index_from_get. now destruct (find _ _). }
  assert (Hsome : forall k u,
    dict_get k (index_from (loci model) []) = Some u ->
    In u (loci model) /\ last_segment u = k).
  { intros k u. rewrite Hget. intros H. apply find_some in H as [Hin Heq].
    apply in_rev in Hin. apply String.eqb_eq in Heq. now split. }
  repeat match goal with |- _ /\ _ => split end.
  - exact Hget.
  - exact last_segment_spec.
  - exact Hsome.
  - intros Hnd u Hu.
    destruct (dict_get (last_segment u) (index_from (loci model) []))
      as [u'|] eqn:E.
    + destruct (Hsome _ _ E) as [Hin Heq].
      now rewrite (NoDup_map_injective last_segment _ u' u Hnd Hin Hu Heq).
    + rewrite Hget in E.
      pose proof (find_none _ _ E u (proj1 (in_rev _ _) Hu)) as Hf.
      simpl in Hf. now rewrite String.eqb_refl in Hf.
  - intros k. rewrite dict_keys_get. destruct (dict_get k _) as [u|] eqn:E.
    + destruct (Hsome _ _ E). split; [eauto | discriminate].
    + split; [congruence|]. intros (u & Hu & <-).
      rewrite Hget in E.
      pose proof (find_none _ _ E u (proj1 (in_rev _ _) Hu)) as Hf.
      simpl in Hf. now rewrite String.eqb_refl in Hf.
  - apply index_from_NoDup. constructor.
Qed.

End NavigatorFacts.

(** The index on the two locus URLs of the specification's example, whose
    final segments differ. *)
Lemma locus_index_witness :
  let api := FullSchemeApi.__init__ Samples.scheme_two_loci in
  dict_get "abc123" (FullSchemeApi._indexed_locis api)
  = Some "https://rest.pubmlst.org/db/pubmlst_neisseria_seqdef/loci/abc123"
  /\ dict_get "xyz789" (FullSchemeApi._indexed_locis api)
     = Some "https://rest.pubmlst.org/db/pubmlst_neisseria_seqdef/loci/xyz789".
Proof.
  assert (Hnd : NoDup (map last_segment
                         (FullSchemeApi.loci Samples.scheme_two_loci))).
  { vm_compute. constructor; [intros [H|[]]; discriminate H|].
    constructor; [intros []|constructor]. }
  destruct (locus_index Samples.scheme_two_loci)
    as (_ & _ & _ & Hown & _ & _).
  split.
  - exact (Hown Hnd _ (or_introl eq_refl)).
  - exact (Hown Hnd _ (or_intror (or_introl eq_refl))).
Defined.

(** The names of the example: exactly "abc123" and "xyz789". *)
Lemma list_loci_example :
  FullSchemeApi.list_loci (FullSchemeApi.__init__ Samples.scheme_two_loci)
  = ["abc123"; "xyz789"].
Proof. reflexivity. Qed.

(** C7, as stated, fails on two URLs with the same final segment: the first
    of them is not what the index holds for its segment. *)
Lemma locus_index_shared_segment_counterexample :
  let model := Samples.scheme_shared_segment in
  FullSchemeApi._index_loci model
  = [("abc123", "https://rest.pubmlst.org/db/b_seqdef/loci/abc123")]
  /\ ~ (forall u,
          In u (FullSchemeApi.loci model) ->
          dict_get (last_segment u)
                   (FullSchemeApi._indexed_locis (FullSchemeApi.__init__ model))
          = Some u).
Proof.
  split; [reflexivity|]. intros H.
  specialize (H "https://rest.pubmlst.org/db/a_seqdef/loci/abc123"
                (or_introl eq_refl)).
  vm_compute in H. discriminate H.
Qed.

(** A name that the index does not hold: the call prints a line and
    returns [None]. *)
Lemma get_alleles_fasta_unknown (fasta : Type)
  (get_alleles : string -> result fasta)
  (self : FullSchemeApi.t) (loci : string) :
  dict_get loci (FullSchemeApi._indexed_locis self) = None ->
  FullSchemeApi.get_alleles_fasta fasta get_alleles self loci
  = (["Loci does not exits"], Ok None).
Proof.
  intros H. unfold FullSchemeApi.get_alleles_fasta. now rewrite H.
Qed.

(** C3, the code at a failing input.  On the scheme of the two example loci,
    asking for the alleles of a locus that is not in the index raises
    nothing: the call prints "Loci does not exits" and returns [None],
    whatever the transport would answer. *)
Theorem get_alleles_fasta_unknown_locus_returns_none
  (fasta : Type) (get_alleles : string -> result fasta) :
  FullSchemeApi.get_alleles_fasta fasta get_alleles
    (FullSchemeApi.__init__ Samples.scheme_two_loci) "unknown_locus"
  = (["Loci does not exits"], Ok None).
Proof. reflexivity. Qed.

(** * Further properties of the collection *)

Lemma filter_m_inv (f : value -> result bool) (l r : list value) :
  filter_m f l = Ok r -> r = filter (passes f) l.
Proof.
  revert r. induction l as [|x l IH]; simpl; intros r.
  - now intros [= <-].
  - unfold passes at 1. destruct (f x) as [b|e]; simpl; [|discriminate].
    destruct (filter_m f l) as [r'|e]; simpl; [|discriminate].
    intros [= <-]. rewrite (IH r' eq_refl). now destruct b.
Qed.

Lemma filter_m_again (f : value -> result bool) (l r r' : list value) :
  filter_m f l = Ok r ->
  (forall x, In x r' -> In x r) ->
  filter_m f r' = Ok r'.
Proof.
  intros H Hsub. pose proof (filter_m_inv _ _ _ H) as ->.
  clear H. induction r' as [|x r' IH]; simpl; [reflexivity|].
  assert (Hx : passes f x = true).
  { specialize (Hsub x (or_introl eq_refl)). now apply filter_In in Hsub. }
  unfold passes in Hx. destruct (f x) as [[|]|]; try discriminate. simpl.
  rewrite IH by (intros y Hy; apply Hsub; now right). reflexivity.
Qed.

Lemma stage_inv (t : option (value -> result bool)) (l r : list value) :
  stage t l = Ok r -> exists keep, r = filter keep l.
Proof.
  destruct t as [f|]; simpl.
  - intros H. exists (passes f). now apply filter_m_inv.
  - intros [= <-]. exists (fun _ => true).
    symmetry. apply forallb_filter_id. now apply forallb_forall.
Qed.

Lemma stage_again (t : option (value -> result bool)) (l r r' : list value) :
  stage t l = Ok r ->
  (forall x, In x r' -> In x r) ->
  stage t r' = Ok r'.
Proof.
  destruct t as [f|]; simpl; [apply filter_m_again | reflexivity].
Qed.

Lemma filter_twice {A} (f g : A -> bool) (l : list A) :
  filter g (filter f l) = filter (fun x => f x && g x) l.
Proof.
  induction l as [|x l IH]; simpl; [reflexivity|].
  destruct (f x); simpl; [destruct (g x)|]; now rewrite IH.
Qed.

Lemma filter_shorter {A} (f : A -> bool) (l : list A) :
  List.length (filter f l) <= List.length l.
Proof.
  induction l as [|x l IH]; simpl; [lia|]. destruct (f x); simpl; lia.
Qed.

Lemma homogeneous_forallb (self : ModelList.t) :
  homogeneous self
  <-> forallb (fun v => ModelList.isinstance v
                          (ModelList._get_model (ModelList.cls self)))
              (ModelList.data self) = true.
Proof.
  unfold homogeneous, ModelList.__post_init__, ModelList._validate_input.
  destruct (forallb _ _); split; intros H; try reflexivity; discriminate.
Qed.

Lemma homogeneous_Forall (c : list_class) (d : list value) :
  homogeneous (ModelList.mk c d)
  <-> Forall (fun v => ModelList.isinstance v (ModelList._get_model c) = true)
             d.
Proof.
  rewrite homogeneous_forallb. simpl. rewrite forallb_forall, Forall_forall.
  reflexivity.
Qed.

Section SearchFacts.

Variable regex : Type.
Variable re_compile : string -> option regex.
Variable re_search : regex -> string -> bool.

Local Abbreviation search := (ModelList.search regex re_compile re_search).

(** A search either fails on its pattern, whatever the collection, or is two
    filtering steps, the tests of which do not depend on the collection. *)
Lemma search_shape (attr : string) (pattern category : option string)
  (exact_match use_regex : bool) :
  (forall C, search C attr pattern category exact_match use_regex
             = Raise ReError)
  \/ exists t1 t2,
       forall C,
         search C attr pattern category exact_match use_regex
         = (d1 <- stage t1 (ModelList.data C) ;;
            d2 <- stage t2 d1 ;;
            Ok (ModelList.mk (ModelList.cls C) d2)).
Proof.
  pose (cat_test := fun c : string => fun data : value =>
          v <- getattr data "category" ;; Ok (eq_str c v)).
  assert (Hsteps : forall (f : value -> result bool) C,
    (fd <-
       match truthy category with
       | Some c => fd <- (fd <- Ok (ModelList.data C) ;; filter_m f fd) ;;
                   filter_m (cat_test c) fd
       | None => fd <- Ok (ModelList.data C) ;; filter_m f fd
       end ;;
     ModelList.__init__ (ModelList.cls C) fd)
    = (d1 <- stage (Some f) (ModelList.data C) ;;
       d2 <- stage (option_map cat_test (truthy category)) d1 ;;
       Ok (ModelList.mk (ModelList.cls C) d2))).
  { intros f [cl d]. cbn [stage ModelList.data ModelList.cls bind].
    destruct (truthy category) as [c|]; cbn [option_map stage bind];
      destruct (filter_m f d) as [d1|]; cbn [bind]; reflexivity. }
  unfold ModelList.search.
  destruct (truthy pattern) as [p|].
  - destruct use_regex;
      [destruct (re_compile p) as [r|];
         [|left; intros C; now destruct (truthy category)]
      |destruct exact_match];
      right; eexists (Some _), (option_map cat_test (truthy category));
      intros C; apply Hsteps.
  - right. exists None, (option_map cat_test (truthy category)).
    intros [cl d]. cbn [stage ModelList.data ModelList.cls bind].
    destruct (truthy category) as [c|]; cbn [option_map stage bind];
      reflexivity.
Qed.

(** The two steps of a search that returned. *)
Lemma search_steps (C L : ModelList.t) (attr : string)
  (pattern category : option string) (exact_match use_regex : bool) :
  search C attr pattern category exact_match use_regex = Ok L ->
  exists t1 t2 d1,
    stage t1 (ModelList.data C) = Ok d1
    /\ stage t2 d1 = Ok (ModelList.data L)
    /\ ModelList.cls L = ModelList.cls C
    /\ forall C',
         search C' attr pattern category exact_match use_regex
         = (d1 <- stage t1 (ModelList.data C') ;;
            d2 <- stage t2 d1 ;;
            Ok (ModelList.mk (ModelList.cls C') d2)).
Proof.
  intros H.
  destruct (search_shape attr pattern category exact_match use_regex)
    as [Hre | (t1 & t2 & Hshape)].
  - rewrite Hre in H. discriminate.
  - rewrite Hshape in H.
    destruct (stage t1 (ModelList.data C)) as [d1|] eqn:H1; [|discriminate].
    cbn [bind] in H.
    destruct (stage t2 d1) as [d2|] eqn:H2; [|discriminate].
    cbn [bind] in H. injection H as <-.
    exists t1, t2, d1. repeat split; assumption.
Qed.

(** X1.  A search that returns gives a collection of the same class whose elements
    are a selection of the elements searched, in their order; it is never
    longer than the collection searched. *)
Theorem search_selects (C L : ModelList.t) (attr : string)
  (pattern category : option string) (exact_match use_regex : bool) :
  search C attr pattern category exact_match use_regex = Ok L ->
  ModelList.cls L = ModelList.cls C
  /\ (exists keep, ModelList.data L = filter keep (ModelList.data C))
  /\ ModelList.__len__ L <= ModelList.__len__ C.
Proof.
  intros H. destruct (search_steps _ _ _ _ _ _ _ H)
    as (t1 & t2 & d1 & H1 & H2 & Hcls & _).
  destruct (stage_inv _ _ _ H1) as [k1 ->].
  destruct (stage_inv _ _ _ H2) as [k2 Hk2].
  rewrite filter_twice in Hk2.
  split; [exact Hcls|]. split; [eauto|].
  unfold ModelList.__len__. rewrite Hk2. apply filter_shorter.
Qed.

(** X2.  Searching the result of a search again, with the same arguments, returns
    that result. *)
Theorem search_idempotent (C L : ModelList.t) (attr : string)
  (pattern category : option string) (exact_match use_regex : bool) :
  search C attr pattern category exact_match use_regex = Ok L ->
  search L attr pattern category exact_match use_regex = Ok L.
Proof.
  intros H. destruct (search_steps _ _ _ _ _ _ _ H)
    as (t1 & t2 & d1 & H1 & H2 & Hcls & Hshape).
  rewrite Hshape.
  destruct (stage_inv _ _ _ H2) as [k2 Hk2].
  rewrite (stage_again t1 _ d1 (ModelList.data L) H1).
  - cbn [bind].
    rewrite (stage_again t2 _ _ (ModelList.data L) H2) by auto.
    cbn [bind]. now destruct L.
  - intros x Hx. rewrite Hk2 in Hx. now apply filter_In in Hx.
Qed.

(** X3.  A search on a collection whose elements are all instances of its model
    returns such a collection. *)
Theorem search_keeps_homogeneous (C L : ModelList.t) (attr : string)
  (pattern category : option string) (exact_match use_regex : bool) :
  homogeneous C ->
  search C attr pattern category exact_match use_regex = Ok L ->
  homogeneous L.
Proof.
  intros HC H. destruct (search_steps _ _ _ _ _ _ _ H)
    as (t1 & t2 & d1 & H1 & H2 & Hcls & _).
  destruct (stage_inv _ _ _ H1) as [k1 ->].
  destruct (stage_inv _ _ _ H2) as [k2 Hk2].
  destruct C as [c d], L as [c' d']. simpl in *. subst c' d'.
  apply homogeneous_Forall. apply homogeneous_Forall in HC.
  rewrite Forall_forall in *. intros x Hx. apply HC.
  apply filter_In in Hx as [Hx _]. now apply filter_In in Hx.
Qed.

End SearchFacts.

(** The three search properties on the sample databases, searched for the
    names that contain "seqdef". *)
Lemma search_selects_witness :
  let L := ModelList.mk DatabaseList [Samples.db_seqdef] in
  ModelList.cls L = ModelList.cls Samples.databases
  /\ (exists keep,
         ModelList.data L = filter keep (ModelList.data Samples.databases))
  /\ ModelList.__len__ L <= ModelList.__len__ Samples.databases.
Proof.
  exact (search_selects string Samples.literal_compile Samples.literal_search
           Samples.databases _ "name" (Some "seqdef") None false false
           eq_refl).
Defined.

Lemma search_idempotent_witness :
  ModelList.search string Samples.literal_compile Samples.literal_search
    (ModelList.mk DatabaseList [Samples.db_seqdef])
    "name" (Some "seqdef") None false false
  = Ok (ModelList.mk DatabaseList [Samples.db_seqdef]).
Proof.
  exact (search_idempotent string Samples.literal_compile
           Samples.literal_search Samples.databases _ "name" (Some "seqdef")
           None false false eq_refl).
Defined.

Lemma search_keeps_homogeneous_witness :
  homogeneous (ModelList.mk DatabaseList [Samples.db_seqdef]).
Proof.
  exact (search_keeps_homogeneous string Samples.literal_compile
           Samples.literal_search Samples.databases _ "name" (Some "seqdef")
           None false false eq_refl eq_refl).
Defined.

(** ** Insertion *)

Lemma homogeneous_app (c : list_class) (d1 d2 : list value) :
  homogeneous (ModelList.mk c (d1 ++ d2))
  <-> homogeneous (ModelList.mk c d1) /\ homogeneous (ModelList.mk c d2).
Proof. rewrite !homogeneous_Forall. apply Forall_app. Qed.

(** X4.  [extend] returns exactly when every new element is an instance of the
    model; the new elements then follow the old ones, and a collection whose
    elements were all instances stays one.  Otherwise it raises [TypeError],
    and no element at all is added. *)
Theorem extend_all_or_nothing (self : ModelList.t) (l : list value) :
  (homogeneous (ModelList.mk (ModelList.cls self) l) ->
   ModelList.extend self l
   = Ok (ModelList.mk (ModelList.cls self) (ModelList.data self ++ l))
   /\ (homogeneous self ->
       homogeneous (ModelList.mk (ModelList.cls self)
                      (ModelList.data self ++ l))))
  /\ (~ homogeneous (ModelList.mk (ModelList.cls self) l) ->
      ModelList.extend self l = Raise TypeError).
Proof.
  unfold ModelList.extend, ModelList._validate_input.
  split; intros H.
  - pose proof H as H'. apply homogeneous_forallb in H'. simpl in H'.
    rewrite H'. split; [reflexivity|]. intros Hs.
    apply homogeneous_app. split; [now destruct self | exact H].
  - rewrite homogeneous_forallb in H. simpl in H.
    destruct (forallb _ l); [now elim H | reflexivity].
Qed.

Lemma extend_all_or_nothing_witness :
  ModelList.extend Samples.databases [Samples.db_seqdef]
  = Ok (ModelList.mk DatabaseList
          [Samples.db_seqdef; Samples.db_isolates; Samples.db_seqdef])
  /\ ModelList.extend Samples.databases
       [Samples.db_seqdef; Samples.scheme_mlst]
     = Raise TypeError.
Proof.
  split.
  - exact (proj1 (proj1 (extend_all_or_nothing Samples.databases
                           [Samples.db_seqdef]) eq_refl)).
  - apply (proj2 (extend_all_or_nothing Samples.databases
                    [Samples.db_seqdef; Samples.scheme_mlst])).
    discriminate.
Defined.

(** X5.  Where [extend] returns, appending the elements one after the other
    returns the same collection. *)
Theorem extend_as_appends (self self' : ModelList.t) (l : list value) :
  ModelList.extend self l = Ok self' ->
  fold_left (fun r v => s <- r ;; ModelList.append s v) l (Ok self)
  = Ok self'.
Proof.
  unfold ModelList.extend, ModelList._validate_input.
  destruct (forallb _ l) eqn:Hl; [|discriminate].
  cbn [bind]. intros [= <-].
  destruct self as [c d]. cbn [ModelList.cls ModelList.data] in *.
  revert d. induction l as [|v l IH]; intros d; cbn [fold_left].
  - now rewrite app_nil_r.
  - cbn [forallb] in Hl. apply andb_prop in Hl as [Hv Hl].
    cbn [bind]. unfold ModelList.append at 2.
    cbn [ModelList.cls ModelList.data]. rewrite Hv.
    rewrite (IH Hl). now rewrite <- app_assoc.
Qed.

Lemma extend_as_appends_witness :
  fold_left (fun r v => s <- r ;; ModelList.append s v)
            [Samples.db_seqdef; Samples.db_isolates]
            (Ok (ModelList.mk DatabaseList []))
  = Ok Samples.databases.
Proof.
  exact (extend_as_appends (ModelList.mk DatabaseList []) Samples.databases
           [Samples.db_seqdef; Samples.db_isolates] eq_refl).
Defined.

(** ** Positional access *)

Import Indexing.

Lemma position_spec (n : Z) (len i : nat) :
  position n len = Some i <->
  (i < len /\ (n = Z.of_nat i \/ n = (Z.of_nat i - Z.of_nat len)%Z)).
Proof.
  unfold position.
  destruct (Z.leb_spec 0 n); [destruct (Z.ltb_spec n (Z.of_nat len))
                             |destruct (Z.leb_spec (- Z.of_nat len) n)];
    split; try discriminate; try (intros [= <-]; lia);
    try (intros [Hi [-> | ->]]; try lia; f_equal; lia).
Qed.

Lemma position_none (n : Z) (len : nat) :
  position n len = None
  <-> (n < - Z.of_nat len \/ Z.of_nat len <= n)%Z.
Proof.
  unfold position.
  destruct (Z.leb_spec 0 n); [destruct (Z.ltb_spec n (Z.of_nat len))
                             |destruct (Z.leb_spec (- Z.of_nat len) n)];
    split; try discriminate; try reflexivity; lia.
Qed.

Lemma replace_at_length {A} (i : nat) (v : A) (l : list A) :
  List.length (replace_at i v l) = List.length l.
Proof.
  revert i. induction l as [|x l IH]; intros [|i]; simpl; auto.
Qed.

Lemma replace_at_same {A} (i : nat) (v : A) (l : list A) :
  i < List.length l -> nth_error (replace_at i v l) i = Some v.
Proof.
  revert i. induction l as [|x l IH]; intros [|i]; simpl; intros H;
    try lia; [reflexivity | apply IH; lia].
Qed.

Lemma replace_at_other {A} (i j : nat) (v : A) (l : list A) :
  i <> j -> nth_error (replace_at i v l) j = nth_error l j.
Proof.
  revert i j. induction l as [|x l IH]; intros [|i] [|j]; simpl; intros H;
    try reflexivity; try lia. apply IH. lia.
Qed.

Lemma replace_at_In {A} (i : nat) (v : A) (l : list A) (x : A) :
  In x (replace_at i v l) -> x = v \/ In x l.
Proof.
  revert i. induction l as [|y l IH]; intros [|i]; simpl; intros H; auto.
  - destruct H as [<-|H]; auto.
  - destruct H as [<-|H]; auto. destruct (IH _ H); auto.
Qed.

Lemma remove_at_length {A} (i : nat) (l : list A) :
  i < List.length l -> S (List.length (remove_at i l)) = List.length l.
Proof.
  revert i. induction l as [|x l IH]; intros [|i]; simpl; intros H;
    try lia. rewrite IH; lia.
Qed.

Lemma remove_at_nth {A} (i j : nat) (l : list A) :
  i < List.length l ->
  nth_error (remove_at i l) j
  = nth_error l (if (j <? i)%nat then j else S j).
Proof.
  revert i j. induction l as [|x l IH]; intros [|i] [|j]; simpl; intros H;
    try lia; try reflexivity.
  rewrite IH by lia. change (S j <? S i)%nat with (j <? i)%nat.
  now destruct (j <? i)%nat.
Qed.

Lemma remove_at_In {A} (i : nat) (l : list A) (x : A) :
  In x (remove_at i l) -> In x l.
Proof.
  revert i. induction l as [|y l IH]; intros [|i]; simpl; intros H; auto.
  destruct H as [<-|H]; eauto.
Qed.

(** X6.  [append] returns exactly when the value is an instance of the model, and
    raises [ValueError] otherwise.  Where it returns, the collection is one
    element longer, [C[-1]] is the appended value, every earlier position
    holds what it held, and a collection whose elements were all instances
    stays one. *)
Theorem append_grows (self : ModelList.t) (v : value) :
  (ModelList.isinstance v (ModelList._get_model (ModelList.cls self)) = true
   -> exists self',
       ModelList.append self v = Ok self'
       /\ ModelList.__len__ self' = S (ModelList.__len__ self)
       /\ __getitem__ self' (VInt (-1)) = Done v
       /\ (forall n, (0 <= n < Z.of_nat (ModelList.__len__ self))%Z ->
                     __getitem__ self' (VInt n) = __getitem__ self (VInt n))
       /\ (homogeneous self -> homogeneous self'))
  /\ (ModelList.isinstance v (ModelList._get_model (ModelList.cls self))
      = false ->
      ModelList.append self v = Raise ValueError).
Proof.
  unfold ModelList.append. split; intros Hv; rewrite Hv; [|reflexivity].
  destruct self as [c d]. cbn [ModelList.cls ModelList.data] in *.
  eexists. split; [reflexivity|].
  unfold ModelList.__len__, __getitem__. cbn [ModelList.data as_int].
  rewrite length_app. cbn [List.length]. rewrite Nat.add_1_r.
  split; [reflexivity|]. split; [|split].
  - assert (Hp : position (-1) (S (List.length d)) = Some (List.length d))
      by (apply position_spec; lia).
    rewrite Hp, nth_error_app2, Nat.sub_diag by lia. reflexivity.
  - intros n Hn.
    assert (H1 : position n (S (List.length d)) = Some (Z.to_nat n))
      by (apply position_spec; lia).
    assert (H2 : position n (List.length d) = Some (Z.to_nat n))
      by (apply position_spec; lia).
    rewrite H1, H2, nth_error_app1 by lia. reflexivity.
  - intros Hs. apply homogeneous_app. split; [exact Hs|].
    apply homogeneous_Forall. now repeat constructor.
Qed.

Lemma append_grows_witness :
  (exists self',
      ModelList.append Samples.databases Samples.db_seqdef = Ok self'
      /\ __getitem__ self' (VInt (-1)) = Done Samples.db_seqdef)
  /\ ModelList.append Samples.databases Samples.scheme_mlst
     = Raise ValueError.
Proof.
  split.
  - destruct (proj1 (append_grows Samples.databases Samples.db_seqdef)
                eq_refl) as (self' & Ha & _ & Hlast & _).
    exists self'. split; [exact Ha | exact Hlast].
  - exact (proj2 (append_grows Samples.databases Samples.scheme_mlst)
             eq_refl).
Defined.

(** X7.  [C[n]] returns exactly for [-len(C) <= n < len(C)], and raises
    [IndexError] otherwise; a position and the same position counted from
    the end give the same element. *)
Theorem getitem_range (C : ModelList.t) (n : Z) :
  let len := Z.of_nat (ModelList.__len__ C) in
  ((- len <= n < len)%Z ->
   exists v, __getitem__ C (VInt n) = Done v
             /\ In v (ModelList.data C))
  /\ ((n < - len \/ len <= n)%Z ->
      __getitem__ C (VInt n) = Fails IndexError)
  /\ ((0 <= n < len)%Z ->
      __getitem__ C (VInt (n - len)) = __getitem__ C (VInt n)).
Proof.
  cbv zeta. unfold __getitem__, ModelList.__len__. cbn [as_int].
  set (l := ModelList.data C). split; [|split].
  - intros Hn.
    destruct (position n (List.length l)) as [i|] eqn:Hp.
    + apply position_spec in Hp as [Hi _].
      destruct (nth_error l i) as [v|] eqn:Hv.
      * exists v. split; [reflexivity|]. now apply nth_error_In in Hv.
      * apply nth_error_None in Hv. lia.
    + apply position_none in Hp. lia.
  - intros Hn. apply position_none in Hn. now rewrite Hn.
  - intros Hn.
    assert (H1 : position n (List.length l) = Some (Z.to_nat n))
      by (apply position_spec; lia).
    assert (H2 : position (n - Z.of_nat (List.length l)) (List.length l)
                 = Some (Z.to_nat n))
      by (apply position_spec; lia).
    now rewrite H1, H2.
Qed.

Lemma getitem_range_witness :
  __getitem__ Samples.databases (VInt (-1))
  = __getitem__ Samples.databases (VInt 1)
  /\ __getitem__ Samples.databases (VInt 2) = Fails IndexError.
Proof.
  split.
  - apply (proj2 (proj2 (getitem_range Samples.databases 1))). simpl. lia.
  - apply (proj1 (proj2 (getitem_range Samples.databases 2))). simpl. lia.
Defined.

(** X8.  Where [C[index] = v] returns, [v] is an instance of the model,
    [C[index]] is then [v], the length and the class are what they were, and
    a collection whose elements were all instances stays one. *)
Theorem setitem_getitem (C C' : ModelList.t) (index v : value) :
  __setitem__ C index v = Done C' ->
  ModelList.isinstance v (ModelList._get_model (ModelList.cls C)) = true
  /\ __getitem__ C' index = Done v
  /\ ModelList.__len__ C' = ModelList.__len__ C
  /\ ModelList.cls C' = ModelList.cls C
  /\ (homogeneous C -> homogeneous C').
Proof.
  unfold __setitem__, __getitem__, ModelList.__len__.
  destruct (as_int index) as [n|]; [|discriminate].
  destruct (ModelList.isinstance v _) eqn:Hv; [|discriminate].
  destruct (position n _) as [i|] eqn:Hp; [|discriminate].
  intros [= <-]. cbn [ModelList.data ModelList.cls].
  rewrite replace_at_length, Hp.
  apply position_spec in Hp as [Hi _].
  rewrite (replace_at_same _ _ _ Hi).
  repeat split. destruct C as [c d]. cbn [ModelList.data ModelList.cls] in *.
  rewrite !homogeneous_Forall, !Forall_forall. intros H x Hx.
  apply replace_at_In in Hx as [->|Hx]; [exact Hv | now apply H].
Qed.

Lemma setitem_getitem_witness :
  __getitem__
    (ModelList.mk DatabaseList [Samples.db_seqdef; Samples.db_seqdef])
    (VInt (-1))
  = Done Samples.db_seqdef.
Proof.
  exact (proj1 (proj2 (setitem_getitem Samples.databases _ (VInt (-1))
                         Samples.db_seqdef eq_refl))).
Defined.

(** X9.  Where [C[n] = v] returns, every other position of the collection holds
    what it held. *)
Theorem setitem_other (C C' : ModelList.t) (n m : Z) (v : value) :
  __setitem__ C (VInt n) v = Done C' ->
  position m (ModelList.__len__ C) <> position n (ModelList.__len__ C) ->
  __getitem__ C' (VInt m) = __getitem__ C (VInt m).
Proof.
  unfold __setitem__, __getitem__, ModelList.__len__. cbn [as_int].
  destruct (ModelList.isinstance v _); [|discriminate].
  destruct (position n _) as [i|] eqn:Hp; [|discriminate].
  intros [= <-] Hne. cbn [ModelList.data]. rewrite replace_at_length.
  destruct (position m _) as [j|]; [|reflexivity].
  rewrite replace_at_other; [reflexivity | congruence].
Qed.

Lemma setitem_other_witness :
  __getitem__
    (ModelList.mk DatabaseList [Samples.db_seqdef; Samples.db_seqdef])
    (VInt 0)
  = __getitem__ Samples.databases (VInt 0).
Proof.
  apply (setitem_other Samples.databases _ (-1) 0 Samples.db_seqdef eq_refl).
  discriminate.
Defined.

(** Neither an index that is not an integer nor a value that is not an
    instance of the model is ever stored: the index is checked first, then
    the value, and only then the range. *)
Theorem setitem_checks (C : ModelList.t) (index v : value) :
  (as_int index = None -> __setitem__ C index v = Fails Index_TypeError)
  /\ (as_int index <> None ->
      ModelList.isinstance v (ModelList._get_model (ModelList.cls C)) = false ->
      __setitem__ C index v = Fails Value_TypeError).
Proof.
  unfold __setitem__. split.
  - now intros ->.
  - intros Hi Hv. destruct (as_int index); [now rewrite Hv | now elim Hi].
Qed.

Lemma setitem_checks_witness :
  __setitem__ Samples.databases (VStr "0") Samples.db_seqdef
  = Fails Index_TypeError
  /\ __setitem__ Samples.databases (VInt 7) Samples.scheme_mlst
     = Fails Value_TypeError.
Proof.
  split.
  - exact (proj1 (setitem_checks Samples.databases (VStr "0")
                    Samples.db_seqdef) eq_refl).
  - apply (proj2 (setitem_checks Samples.databases (VInt 7)
                    Samples.scheme_mlst)); [discriminate | reflexivity].
Defined.

(** X10.  Where [del C[n]] returns, the collection is one element shorter: the
    positions before the deleted one hold what they held, the later elements
    have moved down by one, and a collection whose elements were all
    instances stays one.  It raises [IndexError] for an index out of range. *)
Theorem delitem_shifts (C : ModelList.t) (n : Z) :
  let len := Z.of_nat (ModelList.__len__ C) in
  ((- len <= n < len)%Z ->
   exists C' i,
     __delitem__ C (VInt n) = Done C'
     /\ position n (ModelList.__len__ C) = Some i
     /\ S (ModelList.__len__ C') = ModelList.__len__ C
     /\ (forall j, nth_error (ModelList.data C') j
                   = nth_error (ModelList.data C) (if (j <? i)%nat then j else S j))
     /\ (homogeneous C -> homogeneous C'))
  /\ ((n < - len \/ len <= n)%Z ->
      __delitem__ C (VInt n) = Fails IndexError).
Proof.
  cbv zeta. unfold __delitem__, ModelList.__len__. cbn [as_int]. split.
  - intros Hn.
    destruct (position n _) as [i|] eqn:Hp;
      [|apply position_none in Hp; lia].
    pose proof (proj1 (position_spec _ _ _) Hp) as [Hi _].
    eexists _, i. split; [reflexivity|]. cbn [ModelList.data].
    split; [reflexivity|]. split; [now apply remove_at_length|].
    split; [intros j; now apply remove_at_nth|].
    destruct C as [c d]. cbn [ModelList.data ModelList.cls] in *.
    rewrite !homogeneous_Forall, !Forall_forall. intros H x Hx.
    apply H. now apply remove_at_In in Hx.
  - intros Hn. apply position_none in Hn. now rewrite Hn.
Qed.

Lemma delitem_shifts_witness :
  __delitem__ Samples.databases (VInt 2) = Fails IndexError.
Proof.
  apply (proj2 (delitem_shifts Samples.databases 2)). simpl. lia.
Defined.

(** ** URLs and raw JSON *)

Lemma map_m_Forall2 {A B} (f : A -> result B) (l : list A) (r : list B) :
  map_m f l = Ok r <-> Forall2 (fun x y => f x = Ok y) l r.
Proof.
  split.
  - revert r. induction l as [|x l IH]; simpl; intros r.
    + intros [= <-]. constructor.
    + destruct (f x) as [y|] eqn:Hx; simpl; [|discriminate].
      destruct (map_m f l) as [r'|]; simpl; [|discriminate].
      intros [= <-]. constructor; auto.
  - induction 1 as [|x y l r Hx _ IH]; simpl; [reflexivity|].
    now rewrite Hx, IH.
Qed.

Lemma map_m_raise {A B} (f : A -> result B) (l : list A) :
  Exists (fun x => exists e, f x = Raise e) l ->
  exists e, map_m f l = Raise e.
Proof.
  induction 1 as [x l [e He] | x l _ [e IH]]; simpl.
  - rewrite He. simpl. eauto.
  - destruct (f x); simpl; [rewrite IH; simpl|]; eauto.
Qed.

(** X11.  [get_urls] raises [ValueError] on every collection of resources, the
    empty one included.  On a collection of databases or schemes it returns
    exactly when every element has the URL attribute of the class ([href],
    respectively [scheme]), and then gives that attribute of each element,
    in the order of the elements. *)
Theorem get_urls_spec (self : ModelList.t) :
  (ModelList.cls self = ResourceList ->
   ModelList.get_urls self = Raise ValueError)
  /\ (forall url_attr urls,
         ModelList._set_url_attr (ModelList.cls self) = Some url_attr ->
         (ModelList.get_urls self = Ok urls
          <-> Forall2 (fun data url => getattr data url_attr = Ok url)
                      (ModelList.data self) urls)).
Proof.
  unfold ModelList.get_urls. split.
  - now intros ->.
  - intros url_attr urls ->. apply map_m_Forall2.
Qed.

Lemma get_urls_spec_witness :
  ModelList.get_urls (ModelList.mk ResourceList []) = Raise ValueError
  /\ ModelList.get_urls Samples.databases
     = Ok [ VUrl "https://rest.pubmlst.org/db/pubmlst_neisseria_seqdef";
            VUrl "https://rest.pubmlst.org/db/pubmlst_neisseria_isolates" ].
Proof.
  split.
  - exact (proj1 (get_urls_spec (ModelList.mk ResourceList [])) eq_refl).
  - apply (proj2 (get_urls_spec Samples.databases) "href" _ eq_refl).
    repeat constructor.
Defined.

(** X12.  [ModelList.from_json] keeps the items of a JSON list as they are, in
    their order; it builds no model from them, so a list that holds a JSON
    object gives a collection that the validation of the class rejects.
    Anything but a list is a [ValueError]. *)
Theorem from_json_keeps_raw (c : list_class) (json : value) :
  (forall l, json = VList l ->
     ModelList.from_json c json = Ok (ModelList.mk c l)
     /\ (Exists (fun j => exists kw, j = VDict kw) l ->
         ModelList.__post_init__ (ModelList.mk c l) = Raise TypeError))
  /\ ((forall l, json <> VList l) ->
      ModelList.from_json c json = Raise ValueError).
Proof.
  split.
  - intros l ->. split; [reflexivity|]. intros Hex.
    unfold ModelList.__post_init__, ModelList._validate_input.
    cbn [ModelList.cls ModelList.data].
    destruct (forallb _ l) eqn:Hall; [|reflexivity].
    rewrite forallb_forall in Hall. apply Exists_exists in Hex.
    destruct Hex as (j & Hj & kw & ->). now specialize (Hall _ Hj).
  - intros H. destruct json; try reflexivity. now elim (H l).
Qed.

Lemma from_json_keeps_raw_witness :
  ModelList.__post_init__
    (ModelList.mk DatabaseList [VDict [("name", VStr "pubmlst_neisseria")]])
  = Raise TypeError
  /\ ModelList.from_json DatabaseList (VDict []) = Raise ValueError.
Proof.
  split.
  - apply (proj2 (proj1 (from_json_keeps_raw DatabaseList (VList _)) _
                    eq_refl)).
    constructor. eexists. reflexivity.
  - apply (proj2 (from_json_keeps_raw DatabaseList (VDict []))).
    discriminate.
Defined.

(** ** Derived fields *)

Lemma validate_str_shape (any_url : string -> option string)
  (lax : pytype -> value -> option value) (v v' : value) :
  validate any_url lax TStr v = Some v' -> exists s, v = VStr s /\ v' = VStr s.
Proof. destruct v; simpl; intros [= <-]; eauto. Qed.

Lemma validate_url_shape (any_url : string -> option string)
  (lax : pytype -> value -> option value) (v v' : value) :
  validate any_url lax TUrl v = Some v' ->
  exists h, url_text any_url v = Some h /\ v' = VUrl h.
Proof.
  cbn [validate]. destruct (url_text any_url v) as [h|]; simpl;
    intros [= <-]; eauto.
Qed.

Section DerivedFields.

Variable any_url : string -> option string.
Variable lax : pytype -> value -> option value.

(** What the constructor of [DatabaseModel] returns, where it returns. *)
Lemma DatabaseModel_init_shape (kwargs : dict value) (obj : value) :
  DatabaseModel_init any_url lax kwargs = Ok obj ->
  exists description href href' name,
    dict_get "description" kwargs = Some (VStr description)
    /\ dict_get "href" kwargs = Some href
    /\ url_text any_url href = Some href'
    /\ dict_get "name" kwargs = Some (VStr name)
    /\ obj = VObj DatabaseModel_t
               [ ("description", VStr description);
                 ("href", VUrl href');
                 ("name", VStr name);
                 ("category", VStr (_determine_category name));
                 ("subject", VStr (_parse_subject description)) ].
Proof.
  unfold DatabaseModel_init, dataclass_init. intros H.
  destruct (has_dup _); [discriminate|].
  cbn [map_m DatabaseModel_fields] in H.
  unfold bind_field, required, optional in H.
  cbn [f_name f_type f_default bind] in H.
  destruct (dict_get "description" kwargs) as [d|]; [|discriminate].
  destruct (validate any_url lax TStr d) as [d'|] eqn:Hd; [|discriminate].
  destruct (validate_str_shape _ _ _ _ Hd) as (ds & -> & ->).
  cbn [bind] in H.
  destruct (dict_get "href" kwargs) as [h|]; [|discriminate].
  destruct (validate any_url lax TUrl h) as [h'|] eqn:Hh; [|discriminate].
  destruct (validate_url_shape _ _ _ _ Hh) as (hs & Hurl & ->).
  cbn [bind] in H.
  destruct (dict_get "name" kwargs) as [n|]; [|discriminate].
  destruct (validate any_url lax TStr n) as [n'|] eqn:Hn; [|discriminate].
  destruct (validate_str_shape _ _ _ _ Hn) as (ns & -> & ->).
  cbn [bind] in H.
  exists ds, h, hs, ns.
  destruct (dict_get "category" kwargs) as [c|];
    [destruct (validate any_url lax _ c) as [c'|]; [|discriminate]|];
    (destruct (dict_get "subject" kwargs) as [s|];
     [destruct (validate any_url lax _ s) as [s'|]; [|discriminate]|]);
    cbn in H; injection H as <-; repeat split; assumption.
Qed.

(** What the constructor of [SchemeModel] returns, where it returns. *)
Lemma SchemeModel_init_shape (kwargs : dict value) (obj : value) :
  SchemeModel_init any_url lax kwargs = Ok obj ->
  exists scheme scheme' description,
    dict_get "scheme" kwargs = Some scheme
    /\ url_text any_url scheme = Some scheme'
    /\ dict_get "description" kwargs = Some (VStr description)
    /\ obj = VObj SchemeModel_t
               [ ("scheme", VUrl scheme');
                 ("description", VStr description);
                 ("category", VStr (determine_category description));
                 ("query_endpoint", VStr (scheme' ++ "/sequence")%string) ].
Proof.
  unfold SchemeModel_init, dataclass_init. intros H.
  destruct (has_dup _); [discriminate|].
  cbn [map_m SchemeModel_fields] in H.
  unfold bind_field, required, optional in H.
  cbn [f_name f_type f_default bind] in H.
  destruct (dict_get "scheme" kwargs) as [h|]; [|discriminate].
  destruct (validate any_url lax TUrl h) as [h'|] eqn:Hh; [|discriminate].
  destruct (validate_url_shape _ _ _ _ Hh) as (hs & Hurl & ->).
  cbn [bind] in H.
  destruct (dict_get "description" kwargs) as [d|]; [|discriminate].
  destruct (validate any_url lax TStr d) as [d'|] eqn:Hd; [|discriminate].
  destruct (validate_str_shape _ _ _ _ Hd) as (ds & -> & ->).
  cbn [bind] in H.
  exists h, hs, ds.
  destruct (dict_get "category" kwargs) as [c|];
    [destruct (validate any_url lax _ c) as [c'|]; [|discriminate]|];
    (destruct (dict_get "query_endpoint" kwargs) as [s|];
     [destruct (validate any_url lax _ s) as [s'|]; [|discriminate]|]);
    cbn in H; injection H as <-; repeat split; assumption.
Qed.

(** X13.  The constructor of [DatabaseModel] returns for every set of
    keyword arguments, keywords that are no fields included, that gives a
    string for [description] and for [name], a URL for [href], and nothing
    for [category] and [subject].  What it returns, there and wherever else
    it returns, is determined by these three: [href] is the parsed URL, the
    [category] and the [subject] are the derived ones, whatever the keyword
    arguments give for them. *)
Theorem database_fields_derived (kwargs : dict value) :
  (forall obj,
      DatabaseModel_init any_url lax kwargs = Ok obj ->
      exists description href href' name,
        dict_get "description" kwargs = Some (VStr description)
        /\ dict_get "href" kwargs = Some href
        /\ url_text any_url href = Some href'
        /\ dict_get "name" kwargs = Some (VStr name)
        /\ obj = VObj DatabaseModel_t
                   [ ("description", VStr description);
                     ("href", VUrl href');
                     ("name", VStr name);
                     ("category", VStr (_determine_category name));
                     ("subject", VStr (_parse_subject description)) ])
  /\ (forall description href href' name,
         has_dup (dict_keys kwargs) = false ->
         dict_get "description" kwargs = Some (VStr description) ->
         dict_get "href" kwargs = Some href ->
         url_text any_url href = Some href' ->
         dict_get "name" kwargs = Some (VStr name) ->
         dict_get "category" kwargs = None ->
         dict_get "subject" kwargs = None ->
         DatabaseModel_init any_url lax kwargs
         = Ok (VObj DatabaseModel_t
                 [ ("description", VStr description);
                   ("href", VUrl href');
                   ("name", VStr name);
                   ("category", VStr (_determine_category name));
                   ("subject", VStr (_parse_subject description)) ])).
Proof.
  split; [exact (DatabaseModel_init_shape kwargs)|].
  intros description href href' name Hdup Hd Hh Hurl Hn Hc Hs.
  unfold DatabaseModel_init, dataclass_init. rewrite Hdup.
  cbn [map_m DatabaseModel_fields].
  unfold bind_field, required, optional.
  cbn [f_name f_type f_default bind].
  rewrite Hd, Hh, Hn, Hc, Hs. cbn [validate]. rewrite Hurl. reflexivity.
Qed.

(** X14.  The constructor of [SchemeModel] returns for every set of keyword
    arguments, keywords that are no fields included, that gives a URL for
    [scheme], a string for [description], and nothing for [category] and
    [query_endpoint].  What it returns, there and wherever else it returns,
    is determined by these two: [scheme] is the parsed URL, a URL and not a
    string, the [category] is the derived one and the [query_endpoint] is
    the text of the URL followed by "/sequence", whatever the keyword
    arguments give for them. *)
Theorem scheme_fields_derived (kwargs : dict value) :
  (forall obj,
      SchemeModel_init any_url lax kwargs = Ok obj ->
      exists scheme scheme' description,
        dict_get "scheme" kwargs = Some scheme
        /\ url_text any_url scheme = Some scheme'
        /\ dict_get "description" kwargs = Some (VStr description)
        /\ obj = VObj SchemeModel_t
                   [ ("scheme", VUrl scheme');
                     ("description", VStr description);
                     ("category", VStr (determine_category description));
                     ("query_endpoint",
                      VStr (scheme' ++ "/sequence")%string) ])
  /\ (forall scheme scheme' description,
         has_dup (dict_keys kwargs) = false ->
         dict_get "scheme" kwargs = Some scheme ->
         url_text any_url scheme = Some scheme' ->
         dict_get "description" kwargs = Some (VStr description) ->
         dict_get "category" kwargs = None ->
         dict_get "query_endpoint" kwargs = None ->
         SchemeModel_init any_url lax kwargs
         = Ok (VObj SchemeModel_t
                 [ ("scheme", VUrl scheme');
                   ("description", VStr description);
                   ("category", VStr (determine_category description));
                   ("query_endpoint",
                    VStr (scheme' ++ "/sequence")%string) ])).
Proof.
  split; [exact (SchemeModel_init_shape kwargs)|].
  intros scheme scheme' description Hdup Hs Hurl Hd Hc Hq.
  unfold SchemeModel_init, dataclass_init. rewrite Hdup.
  cbn [map_m SchemeModel_fields].
  unfold bind_field, required, optional.
  cbn [f_name f_type f_default bind].
  rewrite Hs, Hd, Hc, Hq. cbn [validate]. rewrite Hurl. reflexivity.
Qed.

End DerivedFields.

(** The database of the samples, from keyword arguments that give values
    for the derived fields, and from ones that have a keyword that is no
    field. *)
Lemma database_fields_derived_witness :
  (exists description href href' name,
      dict_get "description" MoreSamples.db_kwargs = Some (VStr description)
      /\ dict_get "href" MoreSamples.db_kwargs = Some href
      /\ url_text Samples.http_url href = Some href'
      /\ dict_get "name" MoreSamples.db_kwargs = Some (VStr name)
      /\ Samples.db_seqdef
         = VObj DatabaseModel_t
             [ ("description", VStr description);
               ("href", VUrl href');
               ("name", VStr name);
               ("category", VStr (_determine_category name));
               ("subject", VStr (_parse_subject description)) ])
  /\ DatabaseModel_init Samples.http_url Samples.decimal_lax
       MoreSamples.db_kwargs_extra
     = Ok Samples.db_seqdef.
Proof.
  split.
  - exact (proj1 (database_fields_derived Samples.http_url
                    Samples.decimal_lax MoreSamples.db_kwargs)
             Samples.db_seqdef eq_refl).
  - exact (proj2 (database_fields_derived Samples.http_url
                    Samples.decimal_lax MoreSamples.db_kwargs_extra)
             _ _ _ _ eq_refl eq_refl eq_refl eq_refl eq_refl eq_refl eq_refl).
Defined.

Lemma scheme_fields_derived_witness :
  (exists scheme scheme' description,
      dict_get "scheme" MoreSamples.scheme_kwargs = Some scheme
      /\ url_text Samples.http_url scheme = Some scheme'
      /\ dict_get "description" MoreSamples.scheme_kwargs
         = Some (VStr description)
      /\ Samples.scheme_mlst
         = VObj SchemeModel_t
             [ ("scheme", VUrl scheme');
               ("description", VStr description);
               ("category", VStr (determine_category description));
               ("query_endpoint", VStr (scheme' ++ "/sequence")%string) ])
  /\ SchemeModel_init Samples.http_url Samples.decimal_lax
       MoreSamples.scheme_kwargs_extra
     = Ok Samples.scheme_mlst.
Proof.
  split.
  - exact (proj1 (scheme_fields_derived Samples.http_url
                    Samples.decimal_lax MoreSamples.scheme_kwargs)
             Samples.scheme_mlst eq_refl).
  - exact (proj2 (scheme_fields_derived Samples.http_url
                    Samples.decimal_lax MoreSamples.scheme_kwargs_extra)
             _ _ _ eq_refl eq_refl eq_refl eq_refl eq_refl eq_refl).
Defined.

(** ** The subject is trimmed *)

Lemma lstrip_head (s : string) (c : ascii) (r : string) :
  lstrip s = String c r -> is_space c = false.
Proof.
  induction s as [|a s IH]; simpl; [discriminate|].
  destruct (is_space a) eqn:Ha; [exact IH|]. now intros [= <- _].
Qed.

Lemma rstrip_head (s : string) (c : ascii) (r : string) :
  rstrip s = String c r -> exists r', s = String c r'.
Proof.
  destruct s as [|a s]; simpl; [discriminate|].
  destruct (rstrip s); [destruct (is_space a); [discriminate|]|];
    intros [= <- _]; eauto.
Qed.

Lemma rstrip_last (s r : string) (c : ascii) :
  rstrip s = (r ++ String c "")%string -> is_space c = false.
Proof.
  revert r. induction s as [|a s IH]; intros r; simpl.
  - destruct r; discriminate.
  - destruct (rstrip s) as [|b t] eqn:Ht.
    + destruct (is_space a) eqn:Ha.
      * destruct r; discriminate.
      * destruct r as [|x [|y r]]; simpl; try discriminate.
        now intros [= <-].
    + destruct r as [|x r]; simpl; [discriminate|].
      intros [= _ Hr]. now apply (IH r).
Qed.

(** X15.  The subject that [_parse_subject] gives has no white space at its start
    and none at its end. *)
Theorem subject_is_trimmed (description : string) :
  (forall c r, _parse_subject description = String c r ->
               is_space c = false)
  /\ (forall r c, _parse_subject description = (r ++ String c "")%string ->
                  is_space c = false).
Proof.
  unfold _parse_subject, strip. split.
  - intros c r H. apply rstrip_head in H as [r' H].
    now apply lstrip_head in H.
  - intros r c H. now apply rstrip_last in H.
Qed.

Lemma subject_is_trimmed_witness :
  is_space "P" = false /\ is_space "." = false.
Proof.
  split.
  - exact (proj1 (subject_is_trimmed
             "REST API access to PubMLST Neisseria spp. sequence/profile definitions database")
             "P"%char "ubMLST Neisseria spp." eq_refl).
  - exact (proj2 (subject_is_trimmed
             "REST API access to PubMLST Neisseria spp. sequence/profile definitions database")
             "PubMLST Neisseria spp" "."%char eq_refl).
Defined.

(** The no-break space and the next-line character are white space: a
    subject wrapped in them is trimmed. *)
Lemma subject_trimmed_of_no_break_space :
  _parse_subject
    (String (ascii_of_nat 160)
       ("PubMLST" ++ String (ascii_of_nat 133) (String (ascii_of_nat 160) "")))
  = "PubMLST"%string.
Proof. reflexivity. Qed.

(** ** Assembled collections *)

Lemma all_some_map_same {A} (f : A -> option A) (l r : list A) :
  (forall x y, f x = Some y -> y = x) ->
  all_some (map f l) = Some r -> r = l.
Proof.
  intros Hf. revert r. induction l as [|x l IH]; simpl; intros r.
  - now intros [= <-].
  - destruct (f x) as [y|] eqn:Hx; [|discriminate].
    destruct (all_some (map f l)) as [r'|]; [|discriminate].
    intros [= <-]. now rewrite (Hf _ _ Hx), (IH r' eq_refl).
Qed.

Section AssemblyFacts.

Variable any_url : string -> option string.
Variable lax : pytype -> value -> option value.

Lemma validate_list_of_dicts_same (v v' : value) :
  validate any_url lax (TList TDict) v = Some v' -> v' = v.
Proof.
  destruct v; try discriminate.
  change (validate any_url lax (TList TDict) (VList l))
    with (option_map VList (all_some (map (validate any_url lax TDict) l))).
  destruct (all_some _) as [r|] eqn:Hr; simpl; [|discriminate].
  intros [= <-]. f_equal. apply all_some_map_same in Hr; [exact Hr|].
  intros x y. destruct x; simpl; try discriminate. now intros [= <-].
Qed.

(** What [_set_list_model] leaves when it returns. *)
Lemma set_list_model_inv (self self' : dict value) (attr : string)
  (api_model : dict value -> result value) (list_model : list_class) :
  _set_list_model self attr api_model list_model = Ok self' ->
  exists l rs,
    dict_get attr self = Some (VList l)
    /\ Forall2 (fun j r => call_with api_model j = Ok r) l rs
    /\ self' = dict_set attr (VModelList list_model rs) self.
Proof.
  unfold _set_list_model, self_attr.
  destruct (dict_get attr self) as [v|]; [|discriminate]. cbn [bind].
  destruct v; try discriminate.
  destruct (map_m _ l) as [rs|] eqn:Hrs; [|discriminate].
  cbn. intros [= <-]. exists l, rs. repeat split.
  now apply map_m_Forall2.
Qed.

(** The list field of a constructor that returned, in the keyword
    arguments. *)
Lemma list_field_given (fields : list field) (kwargs self : dict value)
  (n : string) (d : option value) (l : list value) :
  dataclass_init any_url lax fields kwargs = Ok self ->
  find (fun f => String.eqb n (f_name f)) fields
  = Some (mk_field n (TList TDict) d) ->
  d = None \/ d = Some VNone ->
  dict_get n self = Some (VList l) ->
  dict_get n kwargs = Some (VList l).
Proof.
  unfold dataclass_init.
  destruct (has_dup _); [discriminate|].
  intros Hself Hfind Hd.
  rewrite (map_m_bind_field_get any_url lax _ _ _ n Hself), Hfind.
  unfold bind_field. cbn [f_name f_type f_default].
  destruct (dict_get n kwargs) as [v|].
  - destruct (validate any_url lax (TList TDict) v) as [v'|] eqn:Hv;
      [|discriminate].
    apply validate_list_of_dicts_same in Hv. subst v'.
    now intros [= ->].
  - destruct Hd as [-> | ->]; discriminate.
Qed.

Lemma DatabaseModel_init_instance (j r : value) :
  call_with (DatabaseModel_init any_url lax) j = Ok r ->
  ModelList.isinstance r DatabaseModel_t = true.
Proof.
  destruct j; try discriminate. unfold call_with, DatabaseModel_init.
  destruct (dataclass_init _ _ _) as [s|]; [|discriminate]. cbn [bind].
  destruct (DatabaseModel_post_init s) as [s'|[]]; try discriminate.
  now intros [= <-].
Qed.

Lemma SchemeModel_init_instance (j r : value) :
  call_with (SchemeModel_init any_url lax) j = Ok r ->
  ModelList.isinstance r SchemeModel_t = true.
Proof.
  destruct j; try discriminate. unfold call_with, SchemeModel_init.
  destruct (dataclass_init _ _ _) as [s|]; [|discriminate]. cbn [bind].
  destruct (SchemeModel_post_init s) as [s'|[]]; try discriminate.
  now intros [= <-].
Qed.

Lemma ApiResourceModel_init_instance (j r : value) :
  call_with (ApiResourceModel_init any_url lax) j = Ok r ->
  ModelList.isinstance r ApiResourceModel_t = true.
Proof.
  destruct j; try discriminate. unfold call_with, ApiResourceModel_init.
  destruct (dataclass_init _ _ _) as [s|]; [|discriminate]. cbn [bind].
  destruct (ApiResourceModel_post_init _ _ s) as [s'|[]]; try discriminate.
  now intros [= <-].
Qed.

Lemma assembled_from (fields : list field) (kwargs self self' : dict value)
  (c : class_name) (attr : string) (d : option value)
  (api_model : dict value -> result value) (list_model : list_class) :
  dataclass_init any_url lax fields kwargs = Ok self ->
  find (fun f => String.eqb attr (f_name f)) fields
  = Some (mk_field attr (TList TDict) d) ->
  d = None \/ d = Some VNone ->
  _set_list_model self attr api_model list_model = Ok self' ->
  (forall j r, call_with api_model j = Ok r ->
               ModelList.isinstance r (ModelList._get_model list_model)
               = true) ->
  assembled kwargs (VObj c self') attr list_model.
Proof.
  intros Hself Hfind Hd Hset Hinst.
  apply set_list_model_inv in Hset as (l & rs & Hl & HF & ->).
  exists l, rs. split; [|split; [|split]].
  - eapply list_field_given; eassumption.
  - simpl. now rewrite dict_get_set_same.
  - symmetry. eapply Forall2_length; eassumption.
  - apply homogeneous_Forall. clear -HF Hinst.
    induction HF; constructor; eauto.
Qed.

(** X16.  The constructors of the models that hold a list of sub-entities leave a
    collection of the right class in place of the JSON list, with one
    element per item of the list, every one an instance of the model of the
    collection. *)
Theorem assembled_collections_homogeneous (kwargs : dict value)
  (obj : value) :
  (ApiResourceModel_init any_url lax kwargs = Ok obj ->
   assembled kwargs obj "databases" DatabaseList)
  /\ (ApiResourceCollectionModel_init any_url lax kwargs = Ok obj ->
      assembled kwargs obj "resources" ResourceList)
  /\ (Endpoints.SchemeCollectionModel_init any_url lax kwargs = Ok obj ->
      assembled kwargs obj "schemes" SchemeList).
Proof.
  split; [|split].
  - unfold ApiResourceModel_init, ApiResourceModel_post_init.
    destruct (dataclass_init _ _ _) as [s|] eqn:Hs; [|discriminate].
    cbn [bind].
    destruct (_set_list_model _ _ _ _) as [s'|[]] eqn:Hs'; try discriminate.
    intros [= <-].
    eapply assembled_from;
      [exact Hs | reflexivity | now left | exact Hs'
      | exact DatabaseModel_init_instance].
  - unfold ApiResourceCollectionModel_init,
      ApiResourceCollectionModel_post_init.
    destruct (dataclass_init _ _ _) as [s|] eqn:Hs; [|discriminate].
    cbn [bind].
    destruct (_set_list_model _ _ _ _) as [s'|[]] eqn:Hs'; try discriminate.
    intros [= <-].
    eapply assembled_from;
      [exact Hs | reflexivity | now right | exact Hs'
      | exact ApiResourceModel_init_instance].
  - unfold Endpoints.SchemeCollectionModel_init,
      Endpoints.SchemeCollectionModel_post_init.
    destruct (dataclass_init _ _ _) as [s|] eqn:Hs; [|discriminate].
    cbn [bind].
    destruct (_set_list_model _ _ _ _) as [s'|[]] eqn:Hs'; try discriminate.
    intros [= <-].
    eapply assembled_from;
      [exact Hs | reflexivity | now left | exact Hs'
      | exact SchemeModel_init_instance].
Qed.

(** X17.  [_set_list_model] raises [ValueError] where the attribute is not a list,
    and where the constructor of the sub-entity raises on an item of the
    list, whatever it raises: no collection is left then. *)
Theorem set_list_model_errors (self : dict value) (attr : string)
  (api_model : dict value -> result value) (list_model : list_class)
  (v : value) :
  dict_get attr self = Some v ->
  ((forall l, v <> VList l) ->
   _set_list_model self attr api_model list_model = Raise ValueError)
  /\ (forall l, v = VList l ->
        Exists (fun j => exists e, call_with api_model j = Raise e) l ->
        _set_list_model self attr api_model list_model = Raise ValueError).
Proof.
  intros Hv. unfold _set_list_model, self_attr. rewrite Hv. cbn [bind].
  split.
  - intros H. destruct v; try reflexivity. now elim (H l).
  - intros l -> Hex. apply map_m_raise in Hex as [e ->]. reflexivity.
Qed.

End AssemblyFacts.

(** The resource of the samples, from its JSON and from the JSON with keys
    that are no fields; the scheme collection of the samples. *)
Lemma assembled_collections_homogeneous_witness :
  assembled MoreSamples.resource_kwargs Samples.resource_neisseria
    "databases" DatabaseList
  /\ assembled MoreSamples.resource_kwargs_extra Samples.resource_neisseria
       "databases" DatabaseList
  /\ assembled MoreSamples.scheme_collection_kwargs
       MoreSamples.scheme_collection "schemes" SchemeList.
Proof.
  split; [|split].
  - exact (proj1 (assembled_collections_homogeneous Samples.http_url
                    Samples.decimal_lax
                    MoreSamples.resource_kwargs Samples.resource_neisseria)
             eq_refl).
  - exact (proj1 (assembled_collections_homogeneous Samples.http_url
                    Samples.decimal_lax
                    MoreSamples.resource_kwargs_extra
                    Samples.resource_neisseria)
             eq_refl).
  - exact (proj2 (proj2 (assembled_collections_homogeneous Samples.http_url
                           Samples.decimal_lax
                           MoreSamples.scheme_collection_kwargs
                           MoreSamples.scheme_collection))
             eq_refl).
Defined.

Lemma set_list_model_errors_witness :
  _set_list_model [("databases", VNone)] "databases"
    (DatabaseModel_init Samples.http_url Samples.decimal_lax) DatabaseList
  = Raise ValueError
  /\ _set_list_model [("databases", VList [VDict []])] "databases"
       (DatabaseModel_init Samples.http_url Samples.decimal_lax) DatabaseList
     = Raise ValueError.
Proof.
  split.
  - apply (proj1 (set_list_model_errors [("databases", VNone)] "databases"
                    (DatabaseModel_init Samples.http_url Samples.decimal_lax) DatabaseList VNone
                    eq_refl)).
    discriminate.
  - apply (proj2 (set_list_model_errors [("databases", VList [VDict []])]
                    "databases" (DatabaseModel_init Samples.http_url Samples.decimal_lax)
                    DatabaseList _ eq_refl) _ eq_refl).
    constructor. eexists. reflexivity.
Defined.

(** ** Query results *)

Lemma prefix_drop (p s : string) :
  prefix p s = true -> s = (p ++ drop (String.length p) s)%string.
Proof.
  intros H. apply prefix_spec in H as [b ->]. f_equal.
  induction p as [|c p IH]; simpl; [now destruct b | exact IH].
Qed.

Lemma split_fuel_nonempty (fuel : nat) (sep s : string) :
  split_fuel fuel sep s <> [].
Proof.
  destruct fuel; simpl; [discriminate|].
  destruct s; [discriminate|].
  destruct (prefix sep _); [discriminate|].
  destruct (split_fuel fuel sep s); discriminate.
Qed.

Lemma join_cons (sep x : string) (l : list string) :
  l <> [] -> join sep (x :: l) = (x ++ sep ++ join sep l)%string.
Proof. destruct l; [congruence | reflexivity]. Qed.

(** Joining the pieces of a split with the separator gives the string back. *)
Lemma join_split_fuel (fuel : nat) (sep s : string) :
  join sep (split_fuel fuel sep s) = s.
Proof.
  revert s. induction fuel as [|fuel IH]; intros s; [reflexivity|].
  cbn [split_fuel]. destruct s as [|c s]; [reflexivity|].
  destruct (prefix sep (String c s)) eqn:Hp.
  - rewrite join_cons by apply split_fuel_nonempty.
    rewrite IH. simpl. symmetry. now apply prefix_drop.
  - specialize (IH s).
    destruct (split_fuel fuel sep s) as [|w ws] eqn:Hs;
      [now apply split_fuel_nonempty in Hs|].
    destruct ws as [|w' ws]; simpl in *; now rewrite IH.
Qed.

Lemma string_append_empty (s : string) : (s ++ "")%string = s.
Proof. induction s as [|c s IH]; simpl; [reflexivity | now rewrite IH]. Qed.

(** The first piece of a split is the start of the string. *)
Lemma split_fuel_head (fuel : nat) (sep s w : string) (ws : list string) :
  split_fuel fuel sep s = w :: ws -> exists b, s = (w ++ b)%string.
Proof.
  intros H. pose proof (join_split_fuel fuel sep s) as Hj. rewrite H in Hj.
  destruct ws as [|w' ws].
  - exists "". simpl in Hj. now rewrite string_append_empty.
  - exists (sep ++ join sep (w' :: ws))%string. now rewrite <- Hj.
Qed.

Lemma drop_length (n : nat) (s : string) :
  String.length (drop n s) <= String.length s - n.
Proof.
  revert s. induction n as [|n IH]; intros [|c s]; simpl; try lia.
  apply IH.
Qed.

(** No piece of a split holds the separator. *)
Lemma split_fuel_pieces (fuel : nat) (sep s : string) :
  sep <> ""%string -> String.length s <= fuel ->
  Forall (fun w => contains sep w = false) (split_fuel fuel sep s).
Proof.
  intros Hsep.
  assert (Hempty : contains sep "" = false) by now destruct sep.
  revert s. induction fuel as [|fuel IH]; intros s Hlen.
  - destruct s; [|simpl in Hlen; lia]. now constructor.
  - cbn [split_fuel]. destruct s as [|c s]; [now constructor|].
    destruct (prefix sep (String c s)) eqn:Hp.
    + constructor; [exact Hempty|]. apply IH.
      pose proof (drop_length (String.length sep) (String c s)) as Hd.
      destruct sep as [|a sep]; [congruence|].
      cbn [String.length] in *. lia.
    + assert (Hs : String.length s <= fuel) by (simpl in Hlen; lia).
      specialize (IH s Hs).
      destruct (split_fuel fuel sep s) as [|w ws] eqn:Hw;
        [now apply split_fuel_nonempty in Hw|].
      inversion IH as [|? ? Hw0 Hws]; subst.
      constructor; [|exact Hws].
      rewrite contains_unfold.
      destruct (prefix sep (String c w)) eqn:Hpw; [|exact Hw0].
      apply split_fuel_head in Hw as [b ->].
      apply prefix_spec in Hpw as [b' Hb'].
      assert (Hp' : prefix sep (String c (w ++ b)) = true).
      { apply prefix_spec. exists (b' ++ b)%string.
        change (String c (w ++ b)) with (String c w ++ b)%string.
        rewrite Hb'. clear. induction sep as [|a sep IH]; simpl;
          [reflexivity | now rewrite IH]. }
      congruence.
Qed.

Section MoreQueryFacts.

Variable any_url : string -> option string.
Variable lax : pytype -> value -> option value.

(** X18.  A constructed [TaxonModel] holds in [taxonomy] the list of the
    pieces that the string it was given splits to at " > ": no piece holds
    " > ", and the pieces joined with " > " give the string back.  The
    constructor returns for every set of keyword arguments, keywords that
    are no fields included, that gives a string for [taxon], [taxonomy] and
    [rank] and an integer for [support]; the other fields are kept as they
    are given. *)
Theorem taxonomy_round_trip (kwargs : dict value) :
  (forall obj,
      TaxonModel_init any_url lax kwargs = Ok obj ->
      exists taxonomy,
        dict_get "taxonomy" kwargs = Some (VStr taxonomy)
        /\ getattr obj "taxonomy"
           = Ok (VList (map VStr (split " > " taxonomy)))
        /\ Forall (fun piece => contains " > " piece = false)
             (split " > " taxonomy)
        /\ join " > " (split " > " taxonomy) = taxonomy)
  /\ (forall taxon taxonomy support rank,
         has_dup (dict_keys kwargs) = false ->
         dict_get "taxon" kwargs = Some (VStr taxon) ->
         dict_get "taxonomy" kwargs = Some (VStr taxonomy) ->
         dict_get "support" kwargs = Some (VInt support) ->
         dict_get "rank" kwargs = Some (VStr rank) ->
         TaxonModel_init any_url lax kwargs
         = Ok (VObj TaxonModel_t
                 [ ("taxon", VStr taxon);
                   ("taxonomy", VList (map VStr (split " > " taxonomy)));
                   ("support", VInt support);
                   ("rank", VStr rank) ])).
Proof.
  split.
  - intros obj. unfold TaxonModel_init, dataclass_init. intros H.
    destruct (has_dup _); [discriminate|].
    cbn [map_m TaxonModel_fields] in H.
    unfold bind_field, required in H.
    cbn [f_name f_type f_default bind] in H.
    destruct (dict_get "taxon" kwargs) as [t|]; [|discriminate].
    destruct (validate any_url lax TStr t) as [t'|]; [|discriminate].
    cbn [bind] in H.
    destruct (dict_get "taxonomy" kwargs) as [x|]; [|discriminate].
    destruct (validate any_url lax TStr x) as [x'|] eqn:Hx; [|discriminate].
    destruct (validate_str_shape _ _ _ _ Hx) as (xs & -> & ->).
    cbn [bind] in H.
    destruct (dict_get "support" kwargs) as [u|]; [|discriminate].
    destruct (validate any_url lax TInt u) as [u'|]; [|discriminate].
    cbn [bind] in H.
    destruct (dict_get "rank" kwargs) as [r|]; [|discriminate].
    destruct (validate any_url lax TStr r) as [r'|]; [|discriminate].
    cbn [bind] in H.
    unfold TaxonModel_post_init, str_attr, self_attr in H.
    cbn [dict_get String.eqb Ascii.eqb Bool.eqb bind dict_set run_post_init]
      in H.
    injection H as <-.
    exists xs. split; [reflexivity|]. split; [reflexivity|]. split.
    + apply split_fuel_pieces; [discriminate | apply le_n].
    + apply join_split_fuel.
  - intros taxon taxonomy support rank Hdup Ht Hx Hs Hr.
    unfold TaxonModel_init, dataclass_init. rewrite Hdup.
    cbn [map_m TaxonModel_fields].
    unfold bind_field, required.
    cbn [f_name f_type f_default bind].
    rewrite Ht, Hx, Hs, Hr. reflexivity.
Qed.

(** A match object that has an [allele_name] of its own cannot be tagged:
    the constructor is given the keyword twice and raises [TypeError]. *)
Lemma allele_name_given_twice (k : string) (kw : dict value) :
  In "allele_name" (dict_keys kw) ->
  AlleleExactResult_init any_url lax (("allele_name", VStr k) :: kw)
  = Raise TypeError.
Proof.
  intros Hin. unfold AlleleExactResult_init, dataclass_init.
  assert (Hdup : has_dup (dict_keys (("allele_name", VStr k) :: kw)) = true).
  { cbn [dict_keys map fst has_dup]. apply orb_true_iff. left.
    apply existsb_exists. exists "allele_name". split; [exact Hin|].
    apply String.eqb_refl. }
  now rewrite Hdup.
Qed.

Lemma for_items_raises (mapping : list (string * list (dict value)))
  (acc : list value) :
  Exists (fun m => exists e,
            AlleleExactResult_init any_url lax
              (("allele_name", VStr (fst m)) :: snd m) = Raise e)
         (tagged_matches mapping) ->
  exists e,
    for_items any_url lax acc
      (map (fun item => (fst item, VList (map VDict (snd item)))) mapping)
    = Raise e.
Proof.
  revert acc. induction mapping as [|[k ms] mapping IH]; intros acc Hex.
  - inversion Hex.
  - cbn [tagged_matches flat_map fst snd] in Hex.
    apply Exists_app in Hex. cbn [map for_items fst snd].
    unfold extend_matches. cbn [iterate bind].
    destruct Hex as [Hex|Hex].
    + destruct (map_m_raise
                  (call_with (fun value =>
                     AlleleExactResult_init any_url lax
                       (("allele_name", VStr k) :: value)))
                  (map VDict ms)) as [e He].
      { clear -Hex. induction ms as [|kw ms IH]; [inversion Hex|].
        cbn [map] in *. inversion Hex as [? ? Hx | ? ? Hx]; subst.
        - now apply Exists_cons_hd.
        - apply Exists_cons_tl. now apply IH. }
      rewrite He. cbn [bind]. eauto.
    + destruct (map_m _ (map VDict ms)) as [new|e]; cbn [bind]; [|eauto].
      now apply IH.
Qed.

(** X19.  A query result is built from all the match objects or not at all: where
    the constructor of [AlleleExactResult] raises on one of them, as it does
    on one that has an [allele_name] of its own, the constructor of
    [SequenceQueryResult] raises. *)
Theorem exact_matches_all_or_nothing
  (mapping : list (string * list (dict value)))
  (partial_matches fields : option (dict value)) :
  (Exists (fun m => exists e,
             AlleleExactResult_init any_url lax
               (("allele_name", VStr (fst m)) :: snd m) = Raise e)
          (tagged_matches mapping)
   \/ Exists (fun m => In "allele_name" (dict_keys (snd m)))
             (tagged_matches mapping)) ->
  exists e,
    SequenceQueryResult_init any_url lax
      (("exact_matches", matches_value mapping)
         :: keyword "partial_matches" partial_matches
         ++ keyword "fields" fields)
    = Raise e.
Proof.
  intros H.
  assert (Hex : Exists (fun m => exists e,
                  AlleleExactResult_init any_url lax
                    (("allele_name", VStr (fst m)) :: snd m) = Raise e)
                  (tagged_matches mapping)).
  { destruct H as [H|H]; [exact H|].
    eapply Exists_impl; [|exact H]. intros m Hm.
    exists TypeError. now apply allele_name_given_twice. }
  destruct (for_items_raises mapping [] Hex) as [e He].
  unfold SequenceQueryResult_init, SequenceQueryResult_post_init,
    matches_value.
  revert He.
  generalize
    (map (fun item : string * list (dict value) =>
            (fst item, VList (map VDict (snd item)))) mapping).
  intros its He.
  destruct partial_matches, fields; cbn -[for_items];
    rewrite He; destruct e; eexists; reflexivity.
Qed.

End MoreQueryFacts.

(** A prediction of the service, with a field that the model does not
    declare. *)
Lemma taxonomy_round_trip_witness :
  (exists taxonomy,
      dict_get "taxonomy" MoreSamples.taxon_kwargs = Some (VStr taxonomy)
      /\ getattr
           (VObj TaxonModel_t
              [ ("taxon", VStr "Neisseria meningitidis");
                ("taxonomy",
                 VList [VStr "Bacteria"; VStr "Proteobacteria";
                        VStr "Neisseria"]);
                ("support", VInt 100);
                ("rank", VStr "SPECIES") ])
           "taxonomy"
         = Ok (VList (map VStr (split " > " taxonomy)))
      /\ Forall (fun piece => contains " > " piece = false)
           (split " > " taxonomy)
      /\ join " > " (split " > " taxonomy) = taxonomy)
  /\ TaxonModel_init Samples.http_url Samples.decimal_lax
       (MoreSamples.taxon_kwargs ++ [("records", VInt 12)])
     = Ok (VObj TaxonModel_t
             [ ("taxon", VStr "Neisseria meningitidis");
               ("taxonomy",
                VList [VStr "Bacteria"; VStr "Proteobacteria";
                       VStr "Neisseria"]);
               ("support", VInt 100);
               ("rank", VStr "SPECIES") ]).
Proof.
  split.
  - exact (proj1 (taxonomy_round_trip Samples.http_url Samples.decimal_lax
                    MoreSamples.taxon_kwargs) _ eq_refl).
  - exact (proj2 (taxonomy_round_trip Samples.http_url Samples.decimal_lax
                    (MoreSamples.taxon_kwargs ++ [("records", VInt 12)]))
             _ _ _ _ eq_refl eq_refl eq_refl eq_refl eq_refl).
Defined.

Lemma exact_matches_all_or_nothing_witness :
  exists e,
    SequenceQueryResult_init Samples.http_url Samples.decimal_lax
      [("exact_matches",
        matches_value
          [("abc", [[("allele_id", VInt 1)];
                    [("allele_id", VInt 2); ("allele_name", VStr "abc_2")]])])]
    = Raise e.
Proof.
  apply (exact_matches_all_or_nothing Samples.http_url Samples.decimal_lax
           [("abc", [[("allele_id", VInt 1)];
                     [("allele_id", VInt 2); ("allele_name", VStr "abc_2")]])]
           None None).
  right. apply Exists_cons_tl. apply Exists_cons_hd. simpl. auto.
Defined.

(** * The services *)

Lemma map_m_as_model_list (dbs : list ModelList.t) :
  map_m BigSdbApi.as_model_list (map ModelList.to_value dbs) = Ok dbs.
Proof.
  induction dbs as [|[c d] dbs IH]; simpl; [reflexivity|].
  now rewrite IH.
Qed.

(** X20.  [get_databases] is a search by [subject] on the databases of all the
    resources, taken resource by resource in their order; without a pattern
    and without a category, the empty string counting as none, it returns
    them all.  An exception of [get_resources] is passed on. *)
Theorem get_databases_flattens
  (regex : Type) (re_compile : string -> option regex)
  (re_search : regex -> string -> bool)
  (pattern category : option string) (exact_match use_regex : bool) :
  (forall resources dbs,
      Forall2 (fun resource db =>
                 getattr resource "databases" = Ok (ModelList.to_value db))
              resources dbs ->
      let all := ModelList.mk DatabaseList (concat (map ModelList.data dbs)) in
      BigSdbApi.get_databases regex re_compile re_search
        (Ok (VModelList ResourceList resources))
        pattern category exact_match use_regex
      = ModelList.search regex re_compile re_search all "subject"
          pattern category exact_match use_regex
      /\ (truthy pattern = None -> truthy category = None ->
          BigSdbApi.get_databases regex re_compile re_search
            (Ok (VModelList ResourceList resources))
            pattern category exact_match use_regex
          = Ok all))
  /\ (forall e,
         BigSdbApi.get_databases regex re_compile re_search (Raise e)
           pattern category exact_match use_regex
         = Raise e).
Proof.
  split; [|reflexivity].
  intros resources dbs HF. cbv zeta.
  unfold BigSdbApi.get_databases. cbn [bind iterate].
  assert (Hdbs : map_m (fun resource => getattr resource "databases")
                       resources
                 = Ok (map ModelList.to_value dbs)).
  { apply map_m_Forall2. clear -HF.
    induction HF; simpl; constructor; auto. }
  rewrite Hdbs. cbn [bind]. rewrite map_m_as_model_list. cbn [bind].
  rewrite from_list_of_model_lists_concat. cbn [bind].
  unfold BigSdbApi.either, ModelList.search.
  destruct (truthy pattern) as [p|], (truthy category) as [c|];
    split; try reflexivity; discriminate.
Qed.

Lemma get_databases_flattens_witness :
  BigSdbApi.get_databases string Samples.literal_compile
    Samples.literal_search (Ok MoreSamples.resources)
    (Some "") (Some "") false false
  = Ok Samples.databases.
Proof.
  apply (proj1 (get_databases_flattens string Samples.literal_compile
                  Samples.literal_search (Some "") (Some "") false false)
           [Samples.resource_neisseria] [Samples.databases]);
    [|reflexivity|reflexivity].
  repeat constructor.
Defined.

(** ** The index of schemes *)

Section SchemeIndexFacts.

Import SchemeCollectionApi.

(** The final segment of the URL of [s] is [k]. *)
Local Abbreviation key_is k :=
  (fun s => match scheme_key s with
            | Ok k' => String.eqb k k'
            | Raise _ => false
            end).

Lemma index_schemes_get (schemes : list value) (d : dict value) :
  Forall (has_text_attr "scheme") schemes ->
  exists d',
    index_schemes d schemes = Ok d'
    /\ forall k,
         dict_get k d' =
         match find (key_is k) (rev schemes) with
         | Some s => Some s
         | None => dict_get k d
         end.
Proof.
  intros H. revert d. induction H as [|s schemes [u Hu] _ IH]; intros d.
  - exists d. split; [reflexivity|]. reflexivity.
  - cbn [index_schemes]. unfold scheme_key at 1. rewrite Hu. cbn [bind].
    destruct (IH (dict_set (last_segment u) s d)) as (d' & Hd' & Hget).
    exists d'. split; [exact Hd'|]. intros k. rewrite Hget.
    cbn [rev]. rewrite find_over_app.
    destruct (find _ (rev schemes)); [reflexivity|].
    cbn [find]. unfold scheme_key. rewrite Hu. cbn [bind].
    destruct (String.eqb_spec k (last_segment u)) as [->|Hne].
    + apply dict_get_set_same.
    + now apply dict_get_set_other.
Qed.

Lemma getattr_raises (v : value) (a : string) (e : exn) :
  getattr v a = Raise e -> e = AttributeError.
Proof.
  destruct v; simpl; try (now intros [= <-]).
  - destruct (dict_get a attrs); [discriminate | now intros [= <-]].
  - destruct (String.eqb a "data"); [discriminate | now intros [= <-]].
Qed.

Lemma scheme_key_cases (s : value) :
  (exists u, getattr s "scheme" = Ok (VStr u)
             /\ scheme_key s = Ok (last_segment u))
  \/ (~ has_text_attr "scheme" s /\ scheme_key s = Raise AttributeError).
Proof.
  unfold scheme_key, has_text_attr.
  destruct (getattr s "scheme") as [v|e] eqn:Hg; cbn [bind].
  - destruct v; try (right; split; [intros [u Hu]; discriminate
                                   | reflexivity]).
    left. eauto.
  - right. split; [intros [u Hu]; discriminate|].
    now rewrite (getattr_raises _ _ _ Hg).
Qed.

(** One scheme whose URL is not a string ends the comprehension. *)
Lemma index_schemes_raises (schemes : list value) (d : dict value) :
  Exists (fun s => ~ has_text_attr "scheme" s) schemes ->
  index_schemes d schemes = Raise AttributeError.
Proof.
  intros H. revert d. induction H as [s schemes Hs | s schemes _ IH];
    intros d; cbn [index_schemes].
  - destruct (scheme_key_cases s) as [(u & Hu & _) | [_ ->]]; [|reflexivity].
    elim Hs. now exists u.
  - destruct (scheme_key_cases s) as [(u & _ & ->) | [_ ->]]; [|reflexivity].
    cbn [bind]. apply IH.
Qed.

(** The schemes of a constructed [SchemeCollectionModel] hold a URL, which
    is not a string, in [scheme]. *)
Lemma SchemeCollectionModel_init_schemes
  (any_url : string -> option string)
  (lax : pytype -> value -> option value) (kwargs : dict value)
  (model : value) :
  Endpoints.SchemeCollectionModel_init any_url lax kwargs = Ok model ->
  exists schemes,
    iterate model = Ok schemes
    /\ Forall (fun s => exists u, getattr s "scheme" = Ok (VUrl u)) schemes.
Proof.
  unfold Endpoints.SchemeCollectionModel_init,
    Endpoints.SchemeCollectionModel_post_init.
  destruct (dataclass_init _ _ _ _) as [self|]; [|discriminate].
  cbn [bind].
  destruct (_set_list_model _ _ _ _) as [self'|[]] eqn:Hset;
    try discriminate.
  cbn [run_post_init bind]. intros [= <-].
  apply set_list_model_inv in Hset as (l & rs & _ & HF & ->).
  exists rs. split.
  - cbn [iterate iter_attr]. now rewrite dict_get_set_same.
  - clear -HF. induction HF as [|j r l rs Hj _ IH]; constructor; [|exact IH].
    destruct j; try discriminate. cbn [call_with] in Hj.
    apply SchemeModel_init_shape in Hj as (x & u & ds & _ & _ & _ & ->).
    now exists u.
Qed.

(** X21.  [return_scheme_by_idx] draws the schemes of the collection, and:
    where the [scheme] of every one of them is a string, it returns a scheme
    of the collection whose URL ends in [str(idx)] where there is one, the
    last of them, and raises [ValueError] where there is none; where the
    [scheme] of one of them is not a string, it raises [AttributeError],
    whatever the index.  A constructed [SchemeCollectionModel] holds parsed
    URLs, which are no strings: on it the method raises [AttributeError]
    where the collection has a scheme at all, and [ValueError] where it has
    none. *)
Theorem return_scheme_by_idx_spec (model : value) (schemes : list value)
  (idx : index) :
  iterate model = Ok schemes ->
  (Forall (has_text_attr "scheme") schemes ->
   return_scheme_by_idx model idx
   = match find (key_is (str idx)) (rev schemes) with
     | Some scheme => Ok scheme
     | None => Raise ValueError
     end
   /\ (forall scheme,
          return_scheme_by_idx model idx = Ok scheme ->
          In scheme schemes
          /\ exists url, getattr scheme "scheme" = Ok (VStr url)
                         /\ last_segment url = str idx)
   /\ ((forall scheme url,
           In scheme schemes -> getattr scheme "scheme" = Ok (VStr url) ->
           last_segment url <> str idx) ->
       return_scheme_by_idx model idx = Raise ValueError))
  /\ (Exists (fun s => ~ has_text_attr "scheme" s) schemes ->
      return_scheme_by_idx model idx = Raise AttributeError)
  /\ (forall any_url lax kwargs,
         Endpoints.SchemeCollectionModel_init any_url lax kwargs = Ok model ->
         return_scheme_by_idx model idx
         = match schemes with
           | [] => Raise ValueError
           | _ :: _ => Raise AttributeError
           end).
Proof.
  intros Hit. split; [|split].
  - intros Hall. unfold return_scheme_by_idx. rewrite Hit. cbn [bind].
    destruct (index_schemes_get schemes [] Hall) as (d' & -> & Hget).
    cbn [bind]. rewrite Hget.
    assert (Hfound : forall scheme,
      find (key_is (str idx)) (rev schemes) = Some scheme ->
      In scheme schemes
      /\ exists url, getattr scheme "scheme" = Ok (VStr url)
                     /\ last_segment url = str idx).
    { intros scheme Hf. apply find_some in Hf as [Hin Hk].
      apply in_rev in Hin. split; [exact Hin|].
      rewrite Forall_forall in Hall. destruct (Hall _ Hin) as [u Hu].
      exists u. split; [exact Hu|]. unfold scheme_key in Hk.
      rewrite Hu in Hk. cbn [bind] in Hk. apply String.eqb_eq in Hk.
      now symmetry. }
    split; [|split].
    + now destruct (find _ _).
    + intros scheme. destruct (find _ _) as [s|]; [|discriminate].
      intros [= <-]. now apply Hfound.
    + intros Hnone. destruct (find _ _) as [s|]; [|reflexivity].
      destruct (Hfound s eq_refl) as (Hin & u & Hu & Heq).
      now elim (Hnone s u Hin Hu).
  - intros Hex. unfold return_scheme_by_idx. rewrite Hit. cbn [bind].
    now rewrite (index_schemes_raises schemes [] Hex).
  - intros any_url lax kwargs Hinit.
    destruct (SchemeCollectionModel_init_schemes _ _ _ _ Hinit)
      as (schemes' & Hit' & Hurl).
    rewrite Hit in Hit'. injection Hit' as <-.
    unfold return_scheme_by_idx. rewrite Hit. cbn [bind].
    destruct schemes as [|s schemes]; [reflexivity|].
    rewrite (index_schemes_raises (s :: schemes) []); [reflexivity|].
    apply Exists_cons_hd. inversion Hurl as [|? ? [u Hu] _]; subst.
    intros [u' Hu']. rewrite Hu in Hu'. discriminate.
Qed.

End SchemeIndexFacts.

(** On the constructed collection of the samples the method raises
    [AttributeError] for a scheme that the collection has; on objects that
    hold the text of their URL it finds the scheme. *)
Lemma return_scheme_by_idx_spec_witness :
  SchemeCollectionApi.return_scheme_by_idx MoreSamples.scheme_collection
    (SchemeCollectionApi.IdxInt 47)
  = Raise AttributeError
  /\ SchemeCollectionApi.return_scheme_by_idx MoreSamples.text_schemes
       (SchemeCollectionApi.IdxInt 47)
     = Ok (VObj SchemeModel_t
             [ ("scheme", VStr "https://rest.pubmlst.org/db/pubmlst_neisseria_seqdef/schemes/47") ])
  /\ SchemeCollectionApi.return_scheme_by_idx MoreSamples.text_schemes
       (SchemeCollectionApi.IdxInt 2)
     = Raise ValueError.
Proof.
  assert (Hall : Forall (has_text_attr "scheme")
                   [ VObj SchemeModel_t
                       [ ("scheme", VStr "https://rest.pubmlst.org/db/pubmlst_neisseria_seqdef/schemes/1") ];
                     VObj SchemeModel_t
                       [ ("scheme", VStr "https://rest.pubmlst.org/db/pubmlst_neisseria_seqdef/schemes/47") ] ]).
  { repeat apply Forall_cons; [eexists; reflexivity .. | apply Forall_nil]. }
  split; [|split].
  - exact (proj2 (proj2 (return_scheme_by_idx_spec
                           MoreSamples.scheme_collection _
                           (SchemeCollectionApi.IdxInt 47) eq_refl))
             Samples.http_url Samples.decimal_lax
             MoreSamples.scheme_collection_kwargs eq_refl).
  - exact (proj1 (proj1 (return_scheme_by_idx_spec MoreSamples.text_schemes _
                           (SchemeCollectionApi.IdxInt 47) eq_refl) Hall)).
  - exact (proj1 (proj1 (return_scheme_by_idx_spec MoreSamples.text_schemes _
                           (SchemeCollectionApi.IdxInt 2) eq_refl) Hall)).
Defined.

(** ** All the alleles of a scheme *)

Lemma dict_set_new {V} (k : string) (v : V) (d : dict V) :
  ~ In k (dict_keys d) -> dict_set k v d = d ++ [(k, v)].
Proof.
  induction d as [|[k' v'] d IH]; simpl; intros H; [reflexivity|].
  destruct (String.eqb_spec k k') as [->|Hne]; [elim H; now left|].
  rewrite IH; [reflexivity|]. intros Hin. apply H. now right.
Qed.

Lemma dict_get_first {V} (d1 d2 : dict V) (k : string) (v : V) :
  ~ In k (dict_keys d1) -> dict_get k (d1 ++ (k, v) :: d2) = Some v.
Proof.
  induction d1 as [|[k' v'] d1 IH]; simpl; intros H.
  - now rewrite String.eqb_refl.
  - destruct (String.eqb_spec k k') as [->|Hne]; [elim H; now left|].
    apply IH. intros Hin. apply H. now right.
Qed.

Section SchemeFastasFacts.

Variable fasta : Type.
Variable get_alleles : string -> result fasta.

Local Abbreviation collect := (SchemeFastas.collect fasta get_alleles).

(** What the fetch of a URL gives, as an entry of the result. *)
Local Abbreviation entry :=
  (fun kv : string * string =>
     (fst kv, match get_alleles (snd kv) with
              | Ok alleles => Some alleles
              | Raise _ => None
              end)).

Lemma collect_all (self : FullSchemeApi.t) (done todo : dict string)
  (printed : list string) :
  FullSchemeApi._indexed_locis self = done ++ todo ->
  NoDup (dict_keys (done ++ todo)) ->
  Forall (fun kv => exists alleles, get_alleles (snd kv) = Ok alleles) todo ->
  collect self (dict_keys todo) printed (map entry done)
  = (printed, Ok (map entry (done ++ todo))).
Proof.
  revert done. induction todo as [|[k u] todo IH]; intros done Hidx Hnd Hall.
  - now rewrite app_nil_r.
  - inversion Hall as [|? ? [alleles Hu] Hall']; subst. simpl in Hu.
    assert (Hk : ~ In k (dict_keys done)).
    { unfold dict_keys in *. rewrite map_app in Hnd.
      apply NoDup_remove_2 in Hnd. intros Hin. apply Hnd.
      apply in_or_app. now left. }
    cbn [dict_keys map fst SchemeFastas.collect].
    unfold FullSchemeApi.get_alleles_fasta.
    rewrite Hidx, (dict_get_first done todo k u Hk), Hu. cbn [bind].
    rewrite app_nil_r.
    assert (Hkeys : dict_keys (map entry done) = dict_keys done)
      by (unfold dict_keys; now rewrite map_map).
    rewrite dict_set_new by (now rewrite Hkeys).
    replace (map entry done ++ [(k, Some alleles)])
      with (map entry (done ++ [(k, u)]))
      by (rewrite map_app; simpl; now rewrite Hu).
    replace (done ++ (k, u) :: todo) with ((done ++ [(k, u)]) ++ todo)
      by (now rewrite <- app_assoc).
    apply IH; [now rewrite <- app_assoc | now rewrite <- app_assoc | exact Hall'].
Qed.

Lemma collect_prints (self : FullSchemeApi.t) (keys printed : list string)
  (fastas : dict (option fasta)) :
  (forall k, In k keys -> In k (dict_keys (FullSchemeApi._indexed_locis self)))
  ->
  fst (collect self keys printed fastas) = printed.
Proof.
  revert printed fastas.
  induction keys as [|k keys IH]; intros printed fastas Hin; [reflexivity|].
  cbn [SchemeFastas.collect]. unfold FullSchemeApi.get_alleles_fasta.
  pose proof (Hin k (or_introl eq_refl)) as Hk. apply dict_keys_get in Hk.
  destruct (dict_get k _) as [u|]; [|now elim Hk].
  destruct (get_alleles u) as [alleles|e]; cbn [bind].
  - rewrite IH by (intros; apply Hin; now right). apply app_nil_r.
  - apply app_nil_r.
Qed.

Lemma collect_raises (self : FullSchemeApi.t) (done todo : dict string)
  (printed : list string) (fastas : dict (option fasta)) :
  FullSchemeApi._indexed_locis self = done ++ todo ->
  NoDup (dict_keys (done ++ todo)) ->
  Exists (fun kv => exists e, get_alleles (snd kv) = Raise e) todo ->
  exists e, snd (collect self (dict_keys todo) printed fastas) = Raise e.
Proof.
  revert done printed fastas.
  induction todo as [|[k u] todo IH]; intros done printed fastas Hidx Hnd Hex;
    [inversion Hex|].
  assert (Hk : ~ In k (dict_keys done)).
  { unfold dict_keys in *. rewrite map_app in Hnd.
    apply NoDup_remove_2 in Hnd. intros Hin. apply Hnd.
    apply in_or_app. now left. }
  cbn [dict_keys map fst SchemeFastas.collect].
  unfold FullSchemeApi.get_alleles_fasta.
  rewrite Hidx, (dict_get_first done todo k u Hk).
  destruct (get_alleles u) as [alleles|e] eqn:Hu; cbn [bind]; [|simpl; eauto].
  inversion Hex as [? ? [e He] | ? ? Hex']; subst.
  - simpl in He. congruence.
  - apply (IH (done ++ [(k, u)])); [now rewrite <- app_assoc
                                   | now rewrite <- app_assoc | exact Hex'].
Qed.

(** X22.  [get_scheme_fastas] asks only for loci of the index, so it prints
    nothing and no entry of its result is [None]: where every fetch
    succeeds, the result has one entry per name of the index, in the order
    of [list_loci], with the alleles fetched from the URL of the name; where
    a fetch raises, the call raises and gives no result. *)
Theorem get_scheme_fastas_spec (model : FullSchemeApi.FullSchemeModel) :
  let self := FullSchemeApi.__init__ model in
  let index := FullSchemeApi._indexed_locis self in
  fst (SchemeFastas.get_scheme_fastas fasta get_alleles self) = []
  /\ (Forall (fun kv => exists alleles, get_alleles (snd kv) = Ok alleles)
             index ->
      exists fastas,
        snd (SchemeFastas.get_scheme_fastas fasta get_alleles self)
        = Ok fastas
        /\ dict_keys fastas = FullSchemeApi.list_loci self
        /\ Forall2 (fun kv entry =>
                      fst entry = fst kv
                      /\ exists alleles,
                           get_alleles (snd kv) = Ok alleles
                           /\ snd entry = Some alleles)
                   index fastas)
  /\ (Exists (fun kv => exists e, get_alleles (snd kv) = Raise e) index ->
      exists e,
        snd (SchemeFastas.get_scheme_fastas fasta get_alleles self)
        = Raise e).
Proof.
  cbv zeta. unfold SchemeFastas.get_scheme_fastas.
  set (self := FullSchemeApi.__init__ model).
  assert (Hnd : NoDup (dict_keys (FullSchemeApi._indexed_locis self))).
  { apply index_from_NoDup. constructor. }
  split; [|split].
  - now apply collect_prints.
  - intros Hall.
    pose proof (collect_all self [] _ [] eq_refl Hnd Hall) as Hc.
    cbn [map app] in Hc. rewrite Hc. cbn [snd].
    eexists. split; [reflexivity|]. split.
    + unfold FullSchemeApi.list_loci, dict_keys. now rewrite map_map.
    + clear -Hall. induction Hall as [|kv l [alleles Ha] _ IH]; cbn [map];
        constructor; [|exact IH].
      split; [reflexivity|]. exists alleles. cbn [snd]. now rewrite Ha.
  - intros Hex. exact (collect_raises self [] _ [] [] eq_refl Hnd Hex).
Qed.

End SchemeFastasFacts.

Lemma get_scheme_fastas_spec_witness :
  (exists fastas,
      snd (SchemeFastas.get_scheme_fastas string MoreSamples.serve_all
             (FullSchemeApi.__init__ Samples.scheme_two_loci))
      = Ok fastas
      /\ dict_keys fastas = ["abc123"; "xyz789"])
  /\ exists e,
       snd (SchemeFastas.get_scheme_fastas string MoreSamples.serve_first
              (FullSchemeApi.__init__ Samples.scheme_two_loci))
       = Raise e.
Proof.
  split.
  - destruct (proj1 (proj2 (get_scheme_fastas_spec string
                              MoreSamples.serve_all Samples.scheme_two_loci)))
      as (fastas & Hf & Hk & _).
    { repeat apply Forall_cons; [eexists; reflexivity .. | apply Forall_nil]. }
    exists fastas. split; [exact Hf | exact Hk].
  - apply (proj2 (proj2 (get_scheme_fastas_spec string
                           MoreSamples.serve_first Samples.scheme_two_loci))).
    apply Exists_cons_tl. apply Exists_cons_hd. eexists. reflexivity.
Defined.

(** ** The headers of a request *)

Lemma dict_update_NoDup {V} (d new : dict V) :
  NoDup (dict_keys d) -> NoDup (dict_keys (dict_update d new)).
Proof.
  unfold dict_update. revert d.
  induction new as [|[k v] new IH]; intros d H; simpl; [exact H|].
  apply IH. now apply dict_set_NoDup.
Qed.

Lemma dict_update_get {V} (d new : dict V) (k : string) :
  NoDup (dict_keys new) ->
  dict_get k (dict_update d new) =
  match dict_get k new with
  | Some v => Some v
  | None => dict_get k d
  end.
Proof.
  unfold dict_update. revert d.
  induction new as [|[k' v'] new IH]; intros d Hnd; simpl; [reflexivity|].
  inversion Hnd as [|? ? Hnotin Hnd']; subst.
  rewrite IH by exact Hnd'.
  destruct (String.eqb_spec k k') as [->|Hne].
  - destruct (dict_get k' new) eqn:E.
    + elim Hnotin. apply dict_keys_get. congruence.
    + apply dict_get_set_same.
  - destruct (dict_get k new); [reflexivity|].
    now apply dict_get_set_other.
Qed.

(** X23.  The headers of a client keep one value per name through every
    [set_headers], and in a request they win: [_do_request] passes to
    [requests.request] the value of the client for every name the client
    has, and the value of the call for the other names; a response on which
    [raise_for_status] raises becomes an [ApiServiceError]. *)
Theorem client_headers_win (self : RestClient.t)
  (headers : option (dict string)) :
  NoDup (dict_keys (RestClient._headers self)) ->
  (forall new, NoDup (dict_keys (RestClient._headers
                                   (RestClient.set_headers self new))))
  /\ (forall k,
         dict_get k (RestClient.request_headers self headers) =
         match dict_get k (RestClient._headers self) with
         | Some v => Some v
         | None => match headers with
                   | Some h => dict_get k h
                   | None => None
                   end
         end)
  /\ (forall (response kwargs : Type) request http_error url http_method kw,
         RestClient._do_request response kwargs request http_error self url
           http_method headers kw
         = (r <- request http_method url (RestClient._ssl_verify self)
                   (RestClient.request_headers self headers) kw ;;
            if http_error r then Raise ApiServiceError else Ok r)).
Proof.
  intros Hnd. split; [|split].
  - intros new. now apply dict_update_NoDup.
  - intros k. unfold RestClient.request_headers.
    rewrite dict_update_get by exact Hnd.
    destruct (dict_get k (RestClient._headers self)); [reflexivity|].
    now destruct headers as [[|? ?]|].
  - reflexivity.
Qed.

Lemma client_headers_win_witness :
  dict_get "Authorization"
    (RestClient.request_headers MoreSamples.client
       (Some [("Authorization", "other"); ("Accept", "text/plain")]))
  = Some "token"
  /\ dict_get "Accept"
       (RestClient.request_headers MoreSamples.client
          (Some [("Authorization", "other"); ("Accept", "text/plain")]))
     = Some "text/plain".
Proof.
  assert (Hnd : NoDup (dict_keys (RestClient._headers MoreSamples.client))).
  { simpl. constructor; [intros []|constructor]. }
  split.
  - exact (proj1 (proj2 (client_headers_win MoreSamples.client
                           (Some [("Authorization", "other");
                                  ("Accept", "text/plain")]) Hnd))
             "Authorization").
  - exact (proj1 (proj2 (client_headers_win MoreSamples.client
                           (Some [("Authorization", "other");
                                  ("Accept", "text/plain")]) Hnd))
             "Accept").
Defined.
